(** * A Kademlia DHT node: routing table, RPC handlers and join

    Shallow embedding of the Go sources of the node
    (package [kademlia]: routing table, handlers, join; package [constants];
    package [validators]; package [models]) together with the properties
    of the overlay logic that were checked against them.

    Conventions of the embedding:
    - a Go [string] is a [string] of bytes; [len] is [String.length];
    - a Go [int] and a [*big.Int] are [Z] (no arithmetic below comes near
      the 64-bit bounds, except [strconv.Atoi], whose range check is
      written out);
    - a run-time panic is a value of [result]: every function that can
      index, slice or dereference wrongly returns [Panic p] there;
    - the process-wide [kValue] is threaded explicitly as [constants.Vars];
    - maps are [gmap], slices are [list]. *)

From Stdlib Require Import ZArith Ascii String Lia.
From stdpp Require Import base numbers option list strings gmap sorting.

Local Open Scope string_scope.
Local Open Scope Z_scope.

(** ** Panics and results *)

Inductive panic : Type :=
  | NilPointerDereference
  | IndexOutOfRange (i : Z) (len : nat)
  | SliceBoundsOutOfRange (lo : Z) (len : nat)
  | MakeSliceCapOutOfRange (cap : Z).

Inductive result (A : Type) : Type :=
  | Ok (a : A)
  | Panic (p : panic).
Arguments Ok {A} a.
Arguments Panic {A} p.

Definition rbind {A B} (r : result A) (f : A -> result B) : result B :=
  match r with
  | Ok a => f a
  | Panic p => Panic p
  end.

#[global] Instance result_ret : MRet result := fun A a => Ok a.
#[global] Instance result_bind : MBind result := fun A B f r => rbind r f.

(** ** Bytes of a string: [strings.ToUpper] and hexadecimal digits *)

Module Strings.

Definition code (c : ascii) : Z := Z.of_N (N_of_ascii c).

Definition isLower (c : ascii) : bool := (97 <=? code c) && (code c <=? 122).
Definition isUpper (c : ascii) : bool := (65 <=? code c) && (code c <=? 90).
Definition isDigit (c : ascii) : bool := (48 <=? code c) && (code c <=? 57).

(** [strings.ToUpper] on one byte.  Bytes above 127 are left as they are:
    Go maps them rune by rune, and no rune outside ASCII has an upper case
    in [0-9A-Za-z], so such a string is refused by the parser below either
    way. *)
Definition upperByte (c : ascii) : ascii :=
  if isLower c then ascii_of_N (N_of_ascii c - 32) else c.

Fixpoint ToUpper (s : string) : string :=
  match s with
  | EmptyString => EmptyString
  | String c s' => String (upperByte c) (ToUpper s')
  end.

(** Two bytes that are the same up to letter case. *)
Definition sameLetter (c c' : ascii) : bool :=
  if Ascii.eqb c c' then true
  else (isLower c && Ascii.eqb c' (upperByte c))
       || (isLower c' && Ascii.eqb c (upperByte c')).

(** Two strings that differ only in the case of their letters
    (ASCII [strings.EqualFold]). *)
Fixpoint EqualFold (s t : string) : bool :=
  match s, t with
  | EmptyString, EmptyString => true
  | String c s', String d t' => sameLetter c d && EqualFold s' t'
  | _, _ => false
  end.

(** [regexp] class [[a-fA-F0-9]]. *)
Definition isHex (c : ascii) : bool :=
  isDigit c
  || ((97 <=? code c) && (code c <=? 102))
  || ((65 <=? code c) && (code c <=? 70)).

Fixpoint allHex (s : string) : bool :=
  match s with
  | EmptyString => true
  | String c s' => isHex c && allHex s'
  end.

End Strings.

(** ** [math/big]: the part of [Int] the node uses *)

Module Big.

(** Value of one digit character in [nat.scan]: ['0'-'9'], ['a'-'z'],
    ['A'-'Z']; anything else ends the number. *)
Definition digitVal (c : ascii) : option Z :=
  let n := Strings.code c in
  if Strings.isDigit c then Some (n - 48)
  else if Strings.isLower c then Some (n - 97 + 10)
  else if Strings.isUpper c then Some (n - 65 + 10)
  else None.

(** Digits in base [16], most significant first; the whole string has to
    be consumed. *)
Fixpoint scanDigits (s : string) (acc : Z) : option Z :=
  match s with
  | EmptyString => Some acc
  | String c s' =>
      match digitVal c with
      | Some d => if d <? 16 then scanDigits s' (acc * 16 + d) else None
      | None => None
      end
  end.

(** [new(big.Int).SetString(s, 16)]: an optional sign, then at least one
    digit, then the end of the string.  [None] is the [nil, false]
    result. *)
Definition SetString16 (s : string) : option Z :=
  match s with
  | EmptyString => None
  | String c s' =>
      if Ascii.eqb c "-" then
        match s' with
        | EmptyString => None
        | _ => Z.opp <$> scanDigits s' 0
        end
      else if Ascii.eqb c "+" then
        match s' with
        | EmptyString => None
        | _ => scanDigits s' 0
        end
      else scanDigits s 0
  end.

(** [x.BitLen()]: length of the absolute value in bits, [0] for [0]. *)
Definition BitLen (x : Z) : Z :=
  if x =? 0 then 0 else Z.log2 (Z.abs x) + 1.

(** Base-256 digits of a magnitude, least significant first. *)
Fixpoint leBytes (fuel : nat) (n : Z) : list Z :=
  match fuel with
  | O => []
  | S f => if n =? 0 then [] else (n mod 256) :: leBytes f (n / 256)
  end.

(** [x.Bytes()]: the absolute value as a big-endian byte slice, without
    leading zero bytes. *)
Definition Bytes (x : Z) : list Z :=
  reverse (leBytes (Z.to_nat (BitLen x)) (Z.abs x)).

(** [new(big.Int).SetBytes(buf)]: big-endian unsigned integer. *)
Definition SetBytes (buf : list Z) : Z :=
  fold_left (fun acc b => acc * 256 + b) buf 0.

Definition Xor (x y : Z) : Z := Z.lxor x y.

End Big.

(** ** Package [models] *)

Record Node : Type := {
  ID : string;        (* unique identifier of the node *)
  IP : string;        (* address of the node *)
  Port : Z;           (* port on which the node listens *)
  LastSeen : Z        (* never written after construction *)
}.

Record Bucket : Type := {
  Nodes : list Node;  (* oldest first *)
  MaxSize : Z         (* maximum allowed nodes (k) *)
}.

Record RoutingTable : Type := {
  Buckets : list Bucket
}.

(** [KeyValueStore]: the map under its lock.  The lock is not modelled;
    every operation below is one atomic step. *)
Record KeyValueStore : Type := {
  Store : gmap string string
}.

Module KV.
Definition NewKeyValueStore : KeyValueStore := {| Store := ∅ |}.

Definition Set_ (kv : KeyValueStore) (key value : string) : KeyValueStore :=
  {| Store := <[key := value]> (Store kv) |}.

Definition Get (kv : KeyValueStore) (key : string) : option string :=
  Store kv !! key.

Definition GetAll (kv : KeyValueStore) : gmap string string := Store kv.
End KV.

(** ** Package [constants] *)

Module constants.

(** The package-level variables: only [kValue] carries data. *)
Record Vars : Type := { kValue : Z }.

(** State of the package when the process starts: [kValue = 1]. *)
Definition init : Vars := {| kValue := 1 |}.

Definition GetK (c : Vars) : Z := kValue c.

Definition SetK (value : Z) (c : Vars) : Vars := {| kValue := value |}.

End constants.

(** ** Package [validators] *)

Module validators.

Inductive error : Type := InvalidLength | InvalidFormat.

Record ValidatorConfig : Type := {
  Length : nat;
  Pattern : string -> bool
}.

(** The pattern [^[a-fA-F0-9]{40}$]. *)
Definition HexadecimalValidator : ValidatorConfig :=
  {| Length := 40;
     Pattern := fun s => Nat.eqb (String.length s) 40 && Strings.allHex s |}.

(** [None] is the [nil] error. *)
Definition ValidateID (id : string) (config : ValidatorConfig) : option error :=
  if negb (Nat.eqb (String.length id) (Length config)) then Some InvalidLength
  else if negb (Pattern config id) then Some InvalidFormat
  else None.

End validators.

(** ** [sort.Slice]

    The standard library is not part of the repository.  What the node relies
    on is its contract: the slice is permuted, and afterwards no element is
    smaller (by [less]) than one before it; the order of elements that
    compare equal is left open ("not guaranteed to be stable"). *)

Class SliceSorter : Type := {
  sort_Slice : forall {A : Type}, (A -> A -> bool) -> list A -> list A;
  sort_Slice_perm :
    forall (A : Type) (less : A -> A -> bool) (l : list A),
      sort_Slice less l ≡ₚ l;
  sort_Slice_sorted :
    forall (A : Type) (key : A -> Z) (l : list A),
      StronglySorted (fun a b => key a <= key b)
                     (sort_Slice (fun a b => key a <? key b) l)
}.

(** Go's own implementation sorts a slice of at most twelve elements by
    insertion ([insertionSortLessFunc]): for [i] from [1], element [i] moves
    left while it is smaller than its left neighbour.  [revPrefix] is
    [data[0..i)] read from the right. *)
Fixpoint insertLeft {A : Type} (less : A -> A -> bool) (x : A)
    (revPrefix : list A) : list A :=
  match revPrefix with
  | [] => [x]
  | y :: r => if less x y then y :: insertLeft less x r else x :: y :: r
  end.

Definition insertionSort {A : Type} (less : A -> A -> bool) (l : list A) : list A :=
  reverse (fold_left (fun revPrefix x => insertLeft less x revPrefix) l []).

(** ** Package [kademlia]: the routing table *)

(** [s[i]] on a slice, with the bounds check of the run time. *)
Definition index {A : Type} (s : list A) (i : Z) : result A :=
  if i <? 0 then Panic (IndexOutOfRange i (length s))
  else match s !! Z.to_nat i with
       | Some x => Ok x
       | None => Panic (IndexOutOfRange i (length s))
       end.

(** [decodeHex]: [None] when [SetString] returned [nil], in which case
    [result.Bytes()] dereferences a nil pointer. *)
Definition decodeHex (s : string) : option (list Z) :=
  Big.Bytes <$> Big.SetString16 (Strings.ToUpper s).

Definition calculateXORDistance (id1 id2 : string) : result Z :=
  match decodeHex id1 with
  | None => Panic NilPointerDereference
  | Some bytes1 =>
      match decodeHex id2 with
      | None => Panic NilPointerDereference
      | Some bytes2 => Ok (Big.Xor (Big.SetBytes bytes1) (Big.SetBytes bytes2))
      end
  end.

Definition getBucketIndex (distance : Z) : Z := Big.BitLen distance - 1.

Definition NewRoutingTable (c : constants.Vars) (nodeID : string) : RoutingTable :=
  let k := constants.GetK c in
  {| Buckets := replicate (String.length nodeID * 4) {| Nodes := []; MaxSize := k |} |}.

(** Store through the bucket pointer [rt.Buckets[i]]. *)
Definition setBucket (rt : RoutingTable) (i : Z) (b : Bucket) : RoutingTable :=
  {| Buckets := <[Z.to_nat i := b]> (Buckets rt) |}.

Definition hasID (id : string) (nodes : list Node) : bool :=
  existsb (fun n => String.eqb (ID n) id) nodes.

Definition AddNodeToRoutingTable (rt : RoutingTable) (target : Node)
    (localID : string) : result RoutingTable :=
  distance ← calculateXORDistance localID (ID target);
  let bucketIndex := getBucketIndex distance in
  bucket ← index (Buckets rt) bucketIndex;
  if hasID (ID target) (Nodes bucket) then Ok rt
  else if Z.of_nat (length (Nodes bucket)) <? MaxSize bucket then
    Ok (setBucket rt bucketIndex
          {| Nodes := Nodes bucket ++ [target]; MaxSize := MaxSize bucket |})
  else
    match Nodes bucket with
    | [] => Panic (SliceBoundsOutOfRange 1 0)
    | _ :: rest =>
        Ok (setBucket rt bucketIndex
              {| Nodes := rest ++ [target]; MaxSize := MaxSize bucket |})
    end.

Record NodeDistance : Type := {
  DNode : Node;
  Distance : Z
}.

(** The two nested loops of [FindClosestNodes] visit the buckets in order
    and the nodes of each bucket in order. *)
Definition allNodes (rt : RoutingTable) : list Node :=
  concat (Nodes <$> Buckets rt).

Fixpoint collectDistances (queryID : string) (nodes : list Node)
    : result (list NodeDistance) :=
  match nodes with
  | [] => Ok []
  | node :: nodes' =>
      distance ← calculateXORDistance queryID (ID node);
      rest ← collectDistances queryID nodes';
      Ok ({| DNode := node; Distance := distance |} :: rest)
  end.

Definition lessDistance (a b : NodeDistance) : bool := Distance a <? Distance b.

Section WithSorter.
Context `{SliceSorter}.

Definition FindClosestNodes (c : constants.Vars) (routingTable : RoutingTable)
    (queryID localID : string) : result (list Node) :=
  distances ← collectDistances queryID (allNodes routingTable);
  let distances := sort_Slice lessDistance distances in
  let k := constants.GetK c in
  if k <? 0 then Panic (MakeSliceCapOutOfRange k)
  else Ok (DNode <$> take (Z.to_nat k) distances).

End WithSorter.

(** ** [strconv.Atoi] and [strings.Split] *)

Module strconv.

Fixpoint scanDecimal (s : string) (acc : Z) : option Z :=
  match s with
  | EmptyString => Some acc
  | String c s' =>
      if Strings.isDigit c then scanDecimal s' (acc * 10 + (Strings.code c - 48))
      else None
  end.

(** An optional sign, at least one decimal digit, nothing else; the value
    has to fit an [int] (64 bits).  [None] stands for [err != nil]. *)
Definition Atoi (s : string) : option Z :=
  let digits (neg : bool) (d : string) : option Z :=
    match d with
    | EmptyString => None
    | _ =>
        n ← scanDecimal d 0;
        let n := if neg then - n else n in
        if (- 2 ^ 63 <=? n) && (n <=? 2 ^ 63 - 1) then Some n else None
    end in
  match s with
  | EmptyString => None
  | String c s' =>
      if Ascii.eqb c "-" then digits true s'
      else if Ascii.eqb c "+" then digits false s'
      else digits false s
  end.

End strconv.

(** [strings.Split(s, sep)] for a one-byte separator. *)
Fixpoint Split (sep : ascii) (s : string) : list string :=
  match s with
  | EmptyString => [EmptyString]
  | String c s' =>
      if Ascii.eqb c sep then EmptyString :: Split sep s'
      else match Split sep s' with
           | [] => [String c EmptyString]
           | part :: parts => String c part :: parts
           end
  end.

(** ** Package [kademlia]: the handlers *)

(** What a handler writes to its [http.ResponseWriter]. *)
Inductive Body : Type :=
  | Text (msg : string)                  (* [http.Error], [fmt.Fprintf] *)
  | JSONPong (message node_id : string)  (* the map of PING *)
  | JSONNodes (nodes : list Node)        (* [[]*models.Node] *)
  | JSONString (value : string).         (* a stored value *)

Record Response : Type := {
  StatusCode : Z;
  Payload : Body
}.

Definition StatusOK : Z := 200.
Definition StatusCreated : Z := 201.
Definition StatusBadRequest : Z := 400.
Definition StatusMethodNotAllowed : Z := 405.
Definition StatusInternalServerError : Z := 500.

Definition httpError (msg : string) (code : Z) : Response :=
  {| StatusCode := code; Payload := Text msg |}.

Definition errorText (e : validators.error) : string :=
  match e with
  | validators.InvalidLength => "invalid length"
  | validators.InvalidFormat => "invalid format"
  end.

(** A [/ping] request: the query parameters [id] and [port] as
    [r.URL.Query().Get] returns them (empty when absent) and the host part
    of [r.RemoteAddr] ([None] when [net.SplitHostPort] fails). *)
Record PingRequest : Type := {
  pingQueryID : string;
  pingQueryPort : string;
  pingRemoteHost : option string
}.

Definition pong (node : Node) : Response :=
  {| StatusCode := StatusOK; Payload := JSONPong "pong" (ID node) |}.

Definition PingHandler (r : PingRequest) (node : Node) (storage : KeyValueStore)
    (routingTable : RoutingTable) : result (Response * RoutingTable) :=
  let pingerID := pingQueryID r in
  let pingerPort := pingQueryPort r in
  if negb (String.eqb pingerID "") && negb (String.eqb pingerPort "") then
    match strconv.Atoi pingerPort with
    | None => Ok (httpError "Invalid UDP port provided" StatusBadRequest, routingTable)
    | Some pingerUDPPort =>
        if (pingerUDPPort <=? 0) || (65535 <? pingerUDPPort) then
          Ok (httpError "Invalid UDP port provided" StatusBadRequest, routingTable)
        else
          match pingRemoteHost r with
          | None =>
              Ok (httpError "Failed to extract IP address" StatusInternalServerError,
                  routingTable)
          | Some pingerIP =>
              let pingerNode :=
                {| ID := pingerID; IP := pingerIP; Port := pingerUDPPort; LastSeen := 0 |} in
              rt' ← AddNodeToRoutingTable routingTable pingerNode (ID node);
              Ok (pong node, rt')
          end
    end
  else Ok (pong node, routingTable).

(** The body of a [/store] request after [io.ReadAll] and
    [json.Unmarshal]: a field missing from the JSON object is the empty
    string. *)
Inductive StoreBody : Type :=
  | ReadFailed
  | NotJSON
  | Parsed (Key Value : string).

Record StoreRequest : Type := {
  storeMethod : string;
  storeBody : StoreBody
}.

Section Handlers.
Context `{SliceSorter}.

Definition FindNodeHandler (c : constants.Vars) (queryID : string) (node : Node)
    (routingTable : RoutingTable) : result Response :=
  match validators.ValidateID queryID validators.HexadecimalValidator with
  | Some err =>
      Ok (httpError ("Invalid ID format: " ++ errorText err) StatusBadRequest)
  | None =>
      if String.eqb queryID "" then
        Ok (httpError "Missing 'id' parameter" StatusBadRequest)
      else
        closestNodes ← FindClosestNodes c routingTable queryID (ID node);
        Ok {| StatusCode := StatusOK; Payload := JSONNodes closestNodes |}
  end.

Definition StoreHandler (c : constants.Vars) (r : StoreRequest) (node : Node)
    (storage : KeyValueStore) (routingTable : RoutingTable)
    : result (Response * KeyValueStore) :=
  if negb (String.eqb (storeMethod r) "POST") then
    Ok (httpError "Invalid request method" StatusMethodNotAllowed, storage)
  else
    match storeBody r with
    | ReadFailed =>
        Ok (httpError "Failed to read request body" StatusInternalServerError, storage)
    | NotJSON => Ok (httpError "Invalid JSON payload" StatusBadRequest, storage)
    | Parsed key value =>
        if String.eqb key "" || String.eqb value "" then
          Ok (httpError "Invalid JSON payload" StatusBadRequest, storage)
        else
          match validators.ValidateID key validators.HexadecimalValidator with
          | Some err =>
              Ok (httpError ("Invalid Key format: " ++ errorText err) StatusBadRequest,
                  storage)
          | None =>
              closestNodes ← FindClosestNodes c routingTable key (ID node);
              let isClosest := hasID (ID node) closestNodes in
              if negb isClosest then
                Ok ({| StatusCode := StatusOK; Payload := JSONNodes closestNodes |},
                    storage)
              else
                Ok ({| StatusCode := StatusCreated;
                       Payload := Text ("Stored key: " ++ key ++ ", value: " ++ value) |},
                    KV.Set_ storage key value)
          end
    end.

Definition FindValueHandler (c : constants.Vars) (queryKey : string) (node : Node)
    (storage : KeyValueStore) (routingTable : RoutingTable) : result Response :=
  if String.eqb queryKey "" then
    Ok (httpError "Missing 'key' parameter" StatusBadRequest)
  else
    match validators.ValidateID queryKey validators.HexadecimalValidator with
    | Some err =>
        Ok (httpError ("Invalid Key format: " ++ errorText err) StatusBadRequest)
    | None =>
        match Store storage !! queryKey with
        | Some value => Ok {| StatusCode := StatusOK; Payload := JSONString value |}
        | None =>
            closestNodes ← FindClosestNodes c routingTable queryKey (ID node);
            Ok {| StatusCode := StatusOK; Payload := JSONNodes closestNodes |}
        end
    end.

End Handlers.

(** ** Package [kademlia]: joining through a bootstrap node *)

(** What [http.Get] and the JSON decoder deliver: a transport error, or a
    status code with the decoded [{message, node_id}] ([None] when the body
    does not decode; an absent field is the empty string). *)
Inductive GetResult : Type :=
  | GetFailed
  | GetResponse (status : Z) (decoded : option (string * string)).

Inductive JoinError : Type :=
  | InvalidBootstrapAddress   (* invalid bootstrap address format *)
  | InvalidBootstrapPort      (* invalid port in bootstrap address *)
  | FailedToJoin              (* failed to join network *)
  | DecodeFailed              (* failed to decode response *)
  | MissingNodeID.            (* invalid response: missing node ID *)

(** [None] in the first component is the [nil] error. *)
Definition JoinNetwork (httpGet : string -> GetResult) (node : Node)
    (routingTable : RoutingTable) (bootstrapAddr : string)
    : result (option JoinError * RoutingTable) :=
  match Split ":" bootstrapAddr with
  | [ip; portText] =>
      match strconv.Atoi portText with
      | None => Ok (Some InvalidBootstrapPort, routingTable)
      | Some port =>
          let url := "http://" ++ bootstrapAddr ++ "/ping" in
          match httpGet url with
          | GetFailed => Ok (Some FailedToJoin, routingTable)
          | GetResponse status decoded =>
              if negb (status =? StatusOK) then Ok (Some FailedToJoin, routingTable)
              else
                match decoded with
                | None => Ok (Some DecodeFailed, routingTable)
                | Some (message, nodeID) =>
                    if String.eqb nodeID "" then Ok (Some MissingNodeID, routingTable)
                    else
                      let bootstrapNode :=
                        {| ID := nodeID; IP := ip; Port := port; LastSeen := 0 |} in
                      rt' ← AddNodeToRoutingTable routingTable bootstrapNode (ID node);
                      Ok (None, rt')
                end
          end
      end
  | _ => Ok (Some InvalidBootstrapAddress, routingTable)
  end.

(** ** Package [kademlia]: the storage wrappers *)

Definition NewKeyValueStore : KeyValueStore := KV.NewKeyValueStore.

Definition StoreKeyValue (kvs : KeyValueStore) (key value : string) : KeyValueStore :=
  KV.Set_ kvs key value.

(** [None] is the [("", false)] result. *)
Definition FindValue (kvs : KeyValueStore) (key : string) : option string :=
  KV.Get kvs key.

(** ** The earlier handlers

    [internals/kademlia/handlers.go] keeps the first version of the
    handlers, with three arguments; [StartServer] registers the later ones
    above.  The earlier FIND_VALUE answers 404 when the key is unknown. *)

Module Legacy.

Definition StatusNotFound : Z := 404.

Definition FindValueHandler (queryKey : string) (storage : KeyValueStore)
    : Response :=
  if String.eqb queryKey "" then
    httpError "Missing 'key' parameter" StatusBadRequest
  else
    match Store storage !! queryKey with
    | Some value => {| StatusCode := StatusOK; Payload := JSONString value |}
    | None => httpError ("Key '" ++ queryKey ++ "' not found") StatusNotFound
    end.

(** The earlier STORE ([handlers.go]): no test of the key, no look at the
    routing table. *)
Definition StoreHandler (r : StoreRequest) (storage : KeyValueStore)
    : Response * KeyValueStore :=
  if negb (String.eqb (storeMethod r) "POST") then
    (httpError "Invalid request method" StatusMethodNotAllowed, storage)
  else
    match storeBody r with
    | ReadFailed =>
        (httpError "Failed to read request body" StatusInternalServerError, storage)
    | NotJSON => (httpError "Invalid JSON payload" StatusBadRequest, storage)
    | Parsed key value =>
        if String.eqb key "" || String.eqb value "" then
          (httpError "Invalid JSON payload" StatusBadRequest, storage)
        else
          ({| StatusCode := StatusCreated;
              Payload := Text ("Stored key: " ++ key ++ ", value: " ++ value) |},
           KV.Set_ storage key value)
    end.

(** The earlier join ([join.go]): the bootstrap contact gets the empty id,
    the whole address as its IP and port [0]. *)
Definition JoinNetwork (httpGet : string -> GetResult) (node : Node)
    (routingTable : RoutingTable) (bootstrapAddr : string)
    : result (option JoinError * RoutingTable) :=
  let url := "http://" ++ bootstrapAddr ++ "/ping" in
  match httpGet url with
  | GetFailed => Ok (Some FailedToJoin, routingTable)
  | GetResponse status _ =>
      if negb (status =? StatusOK) then Ok (Some FailedToJoin, routingTable)
      else
        let bootstrapNode :=
          {| ID := ""; IP := bootstrapAddr; Port := 0; LastSeen := 0 |} in
        rt' ← AddNodeToRoutingTable routingTable bootstrapNode (ID node);
        Ok (None, rt')
  end.

End Legacy.

(** ** [main]: the first steps of the process *)

(** [main] builds the table for the fresh node id and adds the node to its
    own table before anything else. *)
Definition mainSelfInsert (c : constants.Vars) (nodeID : string) (port : Z)
    : result RoutingTable :=
  let routingTable := NewRoutingTable c nodeID in
  let selfNode := {| ID := nodeID; IP := "127.0.0.1"; Port := port; LastSeen := 0 |} in
  AddNodeToRoutingTable routingTable selfNode nodeID.

(** * Notions used by the statements *)

(** Value of base-256 digits given least significant first. *)
Definition leValue (l : list Z) : Z :=
  fold_right (fun b acc => acc * 256 + b) 0 l.

(** The number an identifier stands for, when [decodeHex] accepts it. *)
Definition hexValue (s : string) : option Z :=
  Z.abs <$> Big.SetString16 (Strings.ToUpper s).

(** The bucket [AddNodeToRoutingTable] selects: its first two statements. *)
Definition bucketIndexFor (localID id : string) : result Z :=
  distance ← calculateXORDistance localID id;
  Ok (getBucketIndex distance).

(** One call in a running node.  A call that panics has not stored
    anything: the only assignments to the table are the last statements of
    the function. *)
Definition addOrKeep (localID : string) (rt : RoutingTable) (target : Node)
    : RoutingTable :=
  match AddNodeToRoutingTable rt target localID with
  | Ok rt' => rt'
  | Panic _ => rt
  end.

Definition addAll (localID : string) (rt : RoutingTable) (targets : list Node)
    : RoutingTable :=
  fold_left (addOrKeep localID) targets rt.

(** What holds of bucket number [i] of the table of the node [localID]
    when the bucket size is [k]. *)
Record bucketOK (localID : string) (k : Z) (i : nat) (b : Bucket) : Prop := {
  ok_MaxSize : MaxSize b = k;
  ok_length : Z.of_nat (length (Nodes b)) <= k;
  ok_NoDup : NoDup (ID <$> Nodes b);
  ok_index : forall n, n ∈ Nodes b ->
               bucketIndexFor localID (ID n) = Ok (Z.of_nat i)
}.

Definition tableOK (localID : string) (k : Z) (rt : RoutingTable) : Prop :=
  forall i b, Buckets rt !! i = Some b -> bucketOK localID k i b.

(** ** Sample identifiers and contacts *)

Module Samples.
Definition localID : string := "00000000000000000000000000000000000000a1".
Definition peerLower : string := "aaaaaaaaaaaaaaaaaaaaaaaaaaaaaaaaaaaaaaaa".
Definition peerUpper : string := "AAAAAAAAAAAAAAAAAAAAAAAAAAAAAAAAAAAAAAAA".
Definition peer1 : string := "8000000000000000000000000000000000000001".
Definition peer2 : string := "8000000000000000000000000000000000000002".
Definition peer3 : string := "8000000000000000000000000000000000000003".
Definition targetID : string := "ffffffffffffffffffffffffffffffffffffffff".
Definition someKey : string := "1234567890abcdef1234567890abcdef12345678".

Definition contact (id : string) : Node :=
  {| ID := id; IP := "10.0.0.2"; Port := 9000; LastSeen := 0 |}.

Definition localNode : Node :=
  {| ID := localID; IP := "127.0.0.1"; Port := 8080; LastSeen := 0 |}.

(** [k = 3], as the tests set it. *)
Definition k3 : constants.Vars := constants.SetK 3 constants.init.
Definition k2 : constants.Vars := constants.SetK 2 constants.init.

(** Two contacts whose ids differ only in case, added in this order. *)
Definition tieTable : RoutingTable :=
  addAll localID (NewRoutingTable k3 localID) [contact peerLower; contact peerUpper].

(** A table whose last bucket is full for [k = 2]. *)
Definition fullTable : RoutingTable :=
  addAll localID (NewRoutingTable k2 localID) [contact peer1; contact peer2].

(** A table in which the local node itself occurs (the "self-insert
    variant" of the scenarios; no call of [AddNodeToRoutingTable] builds
    it). *)
Definition selfTable : RoutingTable :=
  {| Buckets := [ {| Nodes := [localNode]; MaxSize := 3 |} ] |}.

Definition emptyStore : KeyValueStore := KV.NewKeyValueStore.

(** A PONG whose [node_id] is hexadecimal but not a valid identifier. *)
Definition shortID : string := "abc".
Definition pongShortID (url : string) : GetResult :=
  GetResponse 200 (Some ("pong", shortID)).

(** A PONG whose [node_id] is not hexadecimal at all. *)
Definition pongNotHex (url : string) : GetResult :=
  GetResponse 200 (Some ("pong", "not-a-node-id")).
End Samples.



(** * Properties *)

(** ** Insertion sort meets the contract of [sort.Slice] *)

Section InsertionSort.
Context {A : Type}.

Lemma insertLeft_perm (less : A -> A -> bool) x r :
  insertLeft less x r ≡ₚ x :: r.
Proof.
  induction r as [|y r IH]; simpl; [done|].
  destruct (less x y); [|done].
  rewrite IH. apply Permutation_swap.
Qed.

Lemma insertionSort_perm (less : A -> A -> bool) l :
  insertionSort less l ≡ₚ l.
Proof.
  unfold insertionSort.
  assert (G : forall acc,
    fold_left (fun revPrefix x => insertLeft less x revPrefix) l acc ≡ₚ l ++ acc).
  { induction l as [|x l IH]; intros acc; simpl; [done|].
    rewrite IH, insertLeft_perm. by rewrite Permutation_middle. }
  rewrite reverse_Permutation, G. by rewrite app_nil_r.
Qed.

Variable key : A -> Z.
Let less := fun a b => key a <? key b.
Let desc := fun a b => key b <= key a.

Lemma insertLeft_sorted x r :
  StronglySorted desc r -> StronglySorted desc (insertLeft less x r).
Proof.
  induction r as [|y r IH]; intros Hs; simpl.
  - repeat constructor.
  - apply StronglySorted_cons in Hs as [Hy Hr].
    unfold less at 1. destruct (Z.ltb_spec (key x) (key y)) as [Hlt|Hge].
    + apply StronglySorted_cons. split; [|by apply IH].
      rewrite (insertLeft_perm less x r). constructor; [unfold desc; lia|done].
    + apply StronglySorted_cons. split.
      * constructor; [done|].
        eapply Forall_impl; [exact Hy|]. unfold desc. intros; lia.
      * apply StronglySorted_cons. done.
Qed.

Lemma StronglySorted_desc_rev (l : list A) :
  StronglySorted desc l -> StronglySorted (fun a b => key a <= key b) (reverse l).
Proof.
  induction l as [|x l IH]; intros Hs; [constructor|].
  rewrite reverse_cons.
  apply StronglySorted_cons in Hs as [Hx Hl].
  apply StronglySorted_app. split_and!.
  - intros a b Ha Hb. rewrite elem_of_reverse in Ha.
    rewrite list_elem_of_singleton in Hb. subst b.
    rewrite Forall_forall in Hx. exact (Hx a Ha).
  - by apply IH.
  - repeat constructor.
Qed.

Lemma insertionSort_sorted l :
  StronglySorted (fun a b => key a <= key b) (insertionSort less l).
Proof.
  unfold insertionSort. apply StronglySorted_desc_rev.
  assert (G : forall acc, StronglySorted desc acc ->
    StronglySorted desc
      (fold_left (fun revPrefix x => insertLeft less x revPrefix) l acc)).
  { induction l as [|x l IH]; intros acc Hacc; simpl; [done|].
    apply IH. by apply insertLeft_sorted. }
  apply G. constructor.
Qed.

End InsertionSort.

(** The sorter of the Go run time on short slices. *)
#[global] Instance goInsertionSorter : SliceSorter := {|
  sort_Slice := @insertionSort;
  sort_Slice_perm := @insertionSort_perm;
  sort_Slice_sorted := @insertionSort_sorted
|}.

(** ** Identifiers as numbers *)

Module BigFacts.
Import Big.

Lemma SetBytes_snoc l b : SetBytes (l ++ [b]) = SetBytes l * 256 + b.
Proof. unfold SetBytes. by rewrite fold_left_app. Qed.

Lemma SetBytes_reverse l : SetBytes (reverse l) = leValue l.
Proof.
  induction l as [|b l IH]; [done|].
  rewrite reverse_cons, SetBytes_snoc, IH. done.
Qed.

Lemma leBytes_value fuel n :
  0 <= n < 2 ^ Z.of_nat fuel -> leValue (leBytes fuel n) = n.
Proof.
  revert n. induction fuel as [|f IH]; intros n Hn; simpl leBytes.
  - simpl in *. lia.
  - destruct (Z.eqb_spec n 0) as [->|Hne]; [done|].
    simpl. rewrite IH.
    + pose proof (Z.div_mod n 256). lia.
    + split; [apply Z.div_pos; lia|].
      apply Z.div_lt_upper_bound; [lia|].
      rewrite Nat2Z.inj_succ, Z.pow_succ_r in Hn by lia.
      assert (0 < 2 ^ Z.of_nat f) by (apply Z.pow_pos_nonneg; lia). lia.
Qed.

Lemma abs_lt_BitLen x : 0 <= Z.abs x < 2 ^ BitLen x.
Proof.
  unfold BitLen. destruct (Z.eqb_spec x 0) as [->|Hne]; [simpl; lia|].
  assert (0 < Z.abs x) by lia.
  pose proof (Z.log2_spec (Z.abs x) ltac:(lia)) as [_ Hup].
  replace (Z.log2 (Z.abs x) + 1) with (Z.succ (Z.log2 (Z.abs x))) by lia. lia.
Qed.

Lemma BitLen_nonneg x : 0 <= BitLen x.
Proof.
  unfold BitLen. destruct (x =? 0); [lia|].
  pose proof (Z.log2_nonneg (Z.abs x)). lia.
Qed.

(** [SetBytes] undoes [Bytes] up to the sign. *)
Lemma SetBytes_Bytes x : SetBytes (Bytes x) = Z.abs x.
Proof.
  unfold Bytes. rewrite SetBytes_reverse. apply leBytes_value.
  rewrite Z2Nat.id by apply BitLen_nonneg. apply abs_lt_BitLen.
Qed.

End BigFacts.

Lemma decodeHex_hexValue s :
  Big.SetBytes <$> decodeHex s = hexValue s.
Proof.
  unfold decodeHex, hexValue.
  destruct (Big.SetString16 (Strings.ToUpper s)) as [x|]; simpl; [|done].
  by rewrite BigFacts.SetBytes_Bytes.
Qed.

Lemma calculateXORDistance_hexValue id1 id2 :
  calculateXORDistance id1 id2 =
    match hexValue id1, hexValue id2 with
    | Some x, Some y => Ok (Z.lxor x y)
    | _, _ => Panic NilPointerDereference
    end.
Proof.
  unfold calculateXORDistance.
  rewrite <- !decodeHex_hexValue.
  destruct (decodeHex id1), (decodeHex id2); done.
Qed.

Lemma hexValue_nonneg s x : hexValue s = Some x -> 0 <= x.
Proof.
  unfold hexValue. destruct (Big.SetString16 _); simpl; intros [= <-]. lia.
Qed.

Lemma calculateXORDistance_nonneg id1 id2 d :
  calculateXORDistance id1 id2 = Ok d -> 0 <= d.
Proof.
  rewrite calculateXORDistance_hexValue.
  destruct (hexValue id1) as [x|] eqn:Hx; [|done].
  destruct (hexValue id2) as [y|] eqn:Hy; [|done].
  intros [= <-]. apply Z.lxor_nonneg.
  apply hexValue_nonneg in Hx, Hy. lia.
Qed.

Lemma calculateXORDistance_self id :
  calculateXORDistance id id =
    match decodeHex id with
    | Some _ => Ok 0
    | None => Panic NilPointerDereference
    end.
Proof.
  unfold calculateXORDistance. destruct (decodeHex id); [|done].
  unfold Big.Xor. by rewrite Z.lxor_nilpotent.
Qed.

Lemma calculateXORDistance_sym id1 id2 d :
  calculateXORDistance id1 id2 = Ok d -> calculateXORDistance id2 id1 = Ok d.
Proof.
  rewrite !calculateXORDistance_hexValue.
  destruct (hexValue id1), (hexValue id2); try done.
  by rewrite Z.lxor_comm.
Qed.

Lemma AddNodeToRoutingTable_unfold rt target localID :
  AddNodeToRoutingTable rt target localID =
    (bucketIndex ← bucketIndexFor localID (ID target);
     bucket ← index (Buckets rt) bucketIndex;
     if hasID (ID target) (Nodes bucket) then Ok rt
     else if Z.of_nat (length (Nodes bucket)) <? MaxSize bucket then
       Ok (setBucket rt bucketIndex
             {| Nodes := Nodes bucket ++ [target]; MaxSize := MaxSize bucket |})
     else
       match Nodes bucket with
       | [] => Panic (SliceBoundsOutOfRange 1 0)
       | _ :: rest =>
           Ok (setBucket rt bucketIndex
                 {| Nodes := rest ++ [target]; MaxSize := MaxSize bucket |})
       end).
Proof.
  unfold AddNodeToRoutingTable, bucketIndexFor.
  destruct (calculateXORDistance localID (ID target)); done.
Qed.

Lemma hasID_spec id nodes :
  hasID id nodes = true <-> exists n, n ∈ nodes /\ ID n = id.
Proof.
  unfold hasID. rewrite existsb_exists. split.
  - intros (n & Hn & He). exists n. split; [by apply list_elem_of_In|].
    by apply String.eqb_eq.
  - intros (n & Hn & He). exists n. split; [by apply list_elem_of_In|].
    by apply String.eqb_eq.
Qed.

Lemma hasID_false id nodes :
  hasID id nodes = false <-> id ∉ (ID <$> nodes).
Proof.
  rewrite <- not_true_iff_false, hasID_spec, list_elem_of_fmap.
  split; intros Hn (n & H1 & H2); apply Hn; exists n; done.
Qed.

Lemma index_Ok {A} (s : list A) i x :
  index s i = Ok x <-> 0 <= i /\ s !! Z.to_nat i = Some x.
Proof.
  unfold index. destruct (Z.ltb_spec i 0).
  - split; [done|lia].
  - destruct (s !! Z.to_nat i) as [y|]; split.
    + by intros [= ->].
    + by intros [_ [= ->]].
    + done.
    + by intros [_ ?].
Qed.

(** ** Letter case *)

Lemma upperByte_idemp c :
  Strings.upperByte (Strings.upperByte c) = Strings.upperByte c.
Proof. destruct c as [[] [] [] [] [] [] [] []]; reflexivity. Qed.

Lemma sameLetter_upperByte c d :
  Strings.sameLetter c d = true -> Strings.upperByte c = Strings.upperByte d.
Proof.
  unfold Strings.sameLetter.
  destruct (Ascii.eqb_spec c d) as [->|_]; [done|].
  intros [[_ E]%andb_prop | [_ E]%andb_prop]%orb_prop;
    apply Ascii.eqb_eq in E; subst; by rewrite upperByte_idemp.
Qed.

Lemma EqualFold_ToUpper s t :
  Strings.EqualFold s t = true -> Strings.ToUpper s = Strings.ToUpper t.
Proof.
  revert t. induction s as [|c s IH]; intros [|d t]; simpl; try done.
  intros [Hc Hs]%andb_prop.
  f_equal; [by apply sameLetter_upperByte | by apply IH].
Qed.

Lemma EqualFold_decodeHex s t :
  Strings.EqualFold s t = true -> decodeHex s = decodeHex t.
Proof. intros E. unfold decodeHex. by rewrite (EqualFold_ToUpper s t E). Qed.

(** ** Adding the local node itself *)

Lemma getBucketIndex_0 : getBucketIndex 0 = -1.
Proof. reflexivity. Qed.

Lemma index_negative {A} (s : list A) i :
  i < 0 -> index s i = Panic (IndexOutOfRange i (length s)).
Proof. intros Hi. unfold index. by destruct (Z.ltb_spec i 0); [|lia]. Qed.

(** C1 (what the code does): for every routing table and every contact
    whose id is the local id, [AddNodeToRoutingTable] does not return: when
    the id decodes, the distance is [0], the bucket index is [-1] and
    [rt.Buckets[-1]] is evaluated, which is an index out of range; when the
    id does not decode, [decodeHex] dereferences a nil pointer. *)
Theorem AddNodeToRoutingTable_self_panics (rt : RoutingTable) (target : Node) :
  AddNodeToRoutingTable rt target (ID target) =
    match decodeHex (ID target) with
    | Some _ => Panic (IndexOutOfRange (-1) (length (Buckets rt)))
    | None => Panic NilPointerDereference
    end.
Proof.
  unfold AddNodeToRoutingTable.
  rewrite calculateXORDistance_self.
  destruct (decodeHex (ID target)); [|done].
  unfold mbind, result_bind, rbind. cbv beta iota.
  rewrite getBucketIndex_0. by rewrite index_negative.
Qed.

(** The same at the start of the process: [main] adds the fresh node to
    its own table and stops there with a panic. *)
Example mainSelfInsert_panics :
  mainSelfInsert constants.init "a3f5c1d2e4b6978800112233445566778899aabb" 8080
  = Panic (IndexOutOfRange (-1) 160).
Proof. vm_compute. reflexivity. Qed.

(** ** The default bucket size *)

(** C9 (what the code does): before any [SetK], [GetK] returns [1], and
    every bucket of a table built then has capacity [1]. *)
Theorem GetK_initial_is_1 :
  constants.GetK constants.init = 1 /\
  forall (nodeID : string) (b : Bucket),
    b ∈ Buckets (NewRoutingTable constants.init nodeID) -> MaxSize b = 1.
Proof.
  split; [reflexivity|].
  intros nodeID b Hb. unfold NewRoutingTable in Hb. simpl in Hb.
  apply elem_of_replicate in Hb as [-> _]. reflexivity.
Qed.

Lemma GetK_SetK v c : constants.GetK (constants.SetK v c) = v.
Proof. reflexivity. Qed.

(** ** Distance and letter case *)

(** C10: the XOR distance does not depend on the case of the letters of
    either id, so neither does the bucket an id is placed in; the
    duplicate test of [AddNodeToRoutingTable], however, finds an id only
    when a stored id is the very same string. *)
Theorem calculateXORDistance_case_insensitive (a b a' b' : string)
    (Ha : Strings.EqualFold a a' = true) (Hb : Strings.EqualFold b b' = true) :
  calculateXORDistance a b = calculateXORDistance a' b'
  /\ bucketIndexFor a b = bucketIndexFor a' b'
  /\ (forall nodes : list Node,
        hasID b nodes = true <-> exists n, n ∈ nodes /\ ID n = b).
Proof.
  assert (E : calculateXORDistance a b = calculateXORDistance a' b').
  { unfold calculateXORDistance.
    by rewrite (EqualFold_decodeHex a a' Ha), (EqualFold_decodeHex b b' Hb). }
  split; [exact E|]. split.
  - unfold bucketIndexFor. by rewrite E.
  - intros nodes. apply hasID_spec.
Qed.

(** ** Sequences of [AddNodeToRoutingTable] calls *)

Section TableInvariant.
Variable localID : string.
Variable k : Z.

Lemma tableOK_new c nodeID :
  constants.GetK c = k -> 0 <= k -> tableOK localID k (NewRoutingTable c nodeID).
Proof.
  intros Hk Hpos i b Hb. unfold NewRoutingTable in Hb. simpl in Hb.
  apply lookup_replicate in Hb as [-> _].
  split; simpl; [done|lia|constructor|]. intros n Hn. by apply not_elem_of_nil in Hn.
Qed.

Lemma tableOK_setBucket rt bi b :
  0 <= bi -> tableOK localID k rt -> bucketOK localID k (Z.to_nat bi) b ->
  tableOK localID k (setBucket rt bi b).
Proof.
  intros Hbi Hrt Hb i b' Hi. unfold setBucket in Hi. simpl in Hi.
  destruct (decide (i = Z.to_nat bi)) as [->|Hne].
  - destruct (decide (Z.to_nat bi < length (Buckets rt))%nat) as [Hlt|Hge].
    + rewrite list_lookup_insert_eq in Hi by done. by injection Hi as <-.
    + rewrite list_insert_ge in Hi by lia. by apply Hrt.
  - rewrite list_lookup_insert_ne in Hi by done. by apply Hrt.
Qed.

Lemma tableOK_add rt target rt' :
  tableOK localID k rt -> AddNodeToRoutingTable rt target localID = Ok rt' ->
  tableOK localID k rt'.
Proof.
  intros Hrt. rewrite AddNodeToRoutingTable_unfold.
  destruct (bucketIndexFor localID (ID target)) as [bi|] eqn:Hbi; [|done].
  unfold mbind, result_bind, rbind; cbv beta iota.
  destruct (index (Buckets rt) bi) as [b|] eqn:Hb; [|done].
  apply index_Ok in Hb as [Hpos Hb].
  pose proof (Hrt _ _ Hb) as [HM HL HN HI].
  destruct (hasID (ID target) (Nodes b)) eqn:Hdup; [by intros [= <-]|].
  apply hasID_false in Hdup.
  assert (Htarget : bucketIndexFor localID (ID target)
                    = Ok (Z.of_nat (Z.to_nat bi))) by (by rewrite Z2Nat.id).
  destruct (Z.ltb_spec (Z.of_nat (length (Nodes b))) (MaxSize b)) as [Hlt|Hfull].
  - intros [= <-]. apply tableOK_setBucket; [done..|].
    split; simpl.
    + done.
    + rewrite length_app. simpl. lia.
    + rewrite fmap_app. apply NoDup_app. split_and!; [done| |apply NoDup_singleton].
      intros x Hx Hx'. apply list_elem_of_singleton in Hx'. by subst.
    + intros n [Hn|Hn]%elem_of_app; [by apply HI|].
      apply list_elem_of_singleton in Hn. by subst.
  - destruct (Nodes b) as [|h rest] eqn:Hnodes; [done|].
    intros [= <-]. apply tableOK_setBucket; [done..|].
    simpl in HL, HN, Hdup.
    apply NoDup_cons in HN as [_ HN].
    split; simpl.
    + done.
    + rewrite length_app. simpl. lia.
    + rewrite fmap_app. apply NoDup_app. split_and!; [done| |apply NoDup_singleton].
      intros x Hx Hx'. apply list_elem_of_singleton in Hx'. subst.
      apply Hdup. by right.
    + intros n [Hn|Hn]%elem_of_app; [apply HI; by right|].
      apply list_elem_of_singleton in Hn. by subst.
Qed.

Lemma tableOK_addOrKeep rt target :
  tableOK localID k rt -> tableOK localID k (addOrKeep localID rt target).
Proof.
  intros Hrt. unfold addOrKeep.
  destruct (AddNodeToRoutingTable rt target localID) eqn:E; [|done].
  by eapply tableOK_add.
Qed.

Lemma tableOK_addAll rt targets :
  tableOK localID k rt -> tableOK localID k (addAll localID rt targets).
Proof.
  unfold addAll. revert rt.
  induction targets as [|t ts IH]; intros rt Hrt; simpl; [done|].
  apply IH. by apply tableOK_addOrKeep.
Qed.

End TableInvariant.

Lemma elem_of_concat {A : Type} (x : A) (ls : list (list A)) :
  x ∈ concat ls <-> exists l, x ∈ l /\ l ∈ ls.
Proof.
  induction ls as [|l ls IH]; simpl.
  - split; [by intros ?%not_elem_of_nil|]. by intros (l & _ & ?%not_elem_of_nil).
  - rewrite elem_of_app, IH. split.
    + intros [Hx|(l' & Hx & Hl')]; [exists l|exists l']; split; try done.
      * by left.
      * by right.
    + intros (l' & Hx & [->|Hl']%elem_of_cons); [by left|right; by exists l'].
Qed.




Lemma elem_of_allNodes rt i b n :
  Buckets rt !! i = Some b -> n ∈ Nodes b -> n ∈ allNodes rt.
Proof.
  intros Hb Hn. unfold allNodes. apply elem_of_concat.
  exists (Nodes b). split; [done|].
  apply list_elem_of_fmap. exists b. split; [done|].
  by eapply list_elem_of_lookup_2.
Qed.

Lemma elem_of_allNodes_inv rt n :
  n ∈ allNodes rt -> exists i b, Buckets rt !! i = Some b /\ n ∈ Nodes b.
Proof.
  unfold allNodes. intros (l & Hn & Hl)%elem_of_concat.
  apply list_elem_of_fmap in Hl as (b & -> & Hb).
  apply list_elem_of_lookup in Hb as [i Hi]. by exists i, b.
Qed.








(** ** A full bucket *)

(** C6: when the bucket a new contact maps to is full — it holds exactly
    [MaxSize] contacts, the oldest being [h] — and no contact of the bucket
    has the id of the new one, [AddNodeToRoutingTable] drops [h], keeps the
    others in their order, appends the new contact at the tail, leaves the
    size of the bucket as it was and touches no other bucket. *)
Theorem AddNodeToRoutingTable_full_bucket_FIFO (rt : RoutingTable) (target : Node)
    (localID : string) (distance : Z) (bucket : Bucket) (h : Node) (rest : list Node)
    (Hdist : calculateXORDistance localID (ID target) = Ok distance)
    (Hbucket : index (Buckets rt) (getBucketIndex distance) = Ok bucket)
    (Hnodes : Nodes bucket = h :: rest)
    (Hfull : Z.of_nat (length (Nodes bucket)) = MaxSize bucket)
    (Hnew : ID target ∉ (ID <$> Nodes bucket)) :
  exists rt',
    AddNodeToRoutingTable rt target localID = Ok rt'
    /\ Buckets rt' !! Z.to_nat (getBucketIndex distance)
       = Some {| Nodes := rest ++ [target]; MaxSize := MaxSize bucket |}
    /\ Z.of_nat (length (rest ++ [target])) = MaxSize bucket
    /\ (forall j, j <> Z.to_nat (getBucketIndex distance) ->
          Buckets rt' !! j = Buckets rt !! j).
Proof.
  unfold AddNodeToRoutingTable. rewrite Hdist.
  unfold mbind, result_bind, rbind; cbv beta iota. rewrite Hbucket.
  apply hasID_false in Hnew. rewrite Hnew.
  destruct (Z.ltb_spec (Z.of_nat (length (Nodes bucket))) (MaxSize bucket)); [lia|].
  rewrite Hnodes. eexists. split; [reflexivity|].
  apply index_Ok in Hbucket as [Hpos Hlook].
  unfold setBucket; simpl. split_and!.
  - apply list_lookup_insert_eq. by eapply lookup_lt_Some.
  - rewrite <- Hfull, Hnodes, length_app. simpl. lia.
  - intros j Hj. by apply list_lookup_insert_ne.
Qed.

(** ** [FindClosestNodes] *)

Lemma collectDistances_Ok queryID nodes ds :
  collectDistances queryID nodes = Ok ds ->
  DNode <$> ds = nodes
  /\ Forall (fun nd => calculateXORDistance queryID (ID (DNode nd)) = Ok (Distance nd)) ds.
Proof.
  revert ds. induction nodes as [|n nodes IH]; intros ds; simpl.
  - intros [= <-]. by split.
  - unfold mbind, result_bind, rbind.
    destruct (calculateXORDistance queryID (ID n)) as [d|] eqn:Hd; [|done].
    destruct (collectDistances queryID nodes) as [rest|]; [|done].
    intros [= <-]. destruct (IH rest eq_refl) as [IH1 IH2].
    split; [rewrite fmap_cons; by rewrite IH1 | by constructor].
Qed.

Lemma collectDistances_total queryID nodes :
  is_Some (decodeHex queryID) ->
  Forall (fun n => is_Some (decodeHex (ID n))) nodes ->
  exists ds, collectDistances queryID nodes = Ok ds.
Proof.
  intros [bq Hq]. induction 1 as [|n nodes [bn Hn] _ [ds IH]]; simpl.
  - by eexists.
  - unfold calculateXORDistance. rewrite Hq, Hn, IH. simpl. by eexists.
Qed.

Section FindClosest.
Context `{SliceSorter}.

Lemma FindClosestNodes_Ok c rt queryID localID closest :
  FindClosestNodes c rt queryID localID = Ok closest ->
  exists ds,
    collectDistances queryID (allNodes rt) = Ok ds
    /\ 0 <= constants.GetK c
    /\ closest = DNode <$> take (Z.to_nat (constants.GetK c))
                                (sort_Slice lessDistance ds).
Proof.
  unfold FindClosestNodes, mbind, result_bind, rbind.
  destruct (collectDistances queryID (allNodes rt)) as [ds|]; [|done].
  destruct (Z.ltb_spec (constants.GetK c) 0); [done|].
  intros [= <-]. by exists ds.
Qed.

Lemma FindClosestNodes_total c rt queryID localID :
  0 <= constants.GetK c ->
  is_Some (decodeHex queryID) ->
  Forall (fun n => is_Some (decodeHex (ID n))) (allNodes rt) ->
  exists closest, FindClosestNodes c rt queryID localID = Ok closest.
Proof.
  intros Hk Hq Hrt.
  destruct (collectDistances_total queryID (allNodes rt) Hq Hrt) as [ds Hds].
  unfold FindClosestNodes, mbind, result_bind, rbind. rewrite Hds.
  destruct (Z.ltb_spec (constants.GetK c) 0); [lia|]. by eexists.
Qed.

(** What every result of [FindClosestNodes] satisfies. *)
Lemma FindClosestNodes_spec c rt queryID localID closest :
  FindClosestNodes c rt queryID localID = Ok closest ->
  Z.of_nat (length closest) <= constants.GetK c
  /\ length closest
     = Nat.min (Z.to_nat (constants.GetK c)) (length (allNodes rt))
  /\ closest ⊆+ allNodes rt
  /\ exists distances,
       Forall2 (fun n d => calculateXORDistance queryID (ID n) = Ok d)
               closest distances
       /\ StronglySorted Z.le distances.
Proof.
  intros (ds & Hds & Hk & ->)%FindClosestNodes_Ok.
  apply collectDistances_Ok in Hds as [Hnodes Hdist].
  set (k := Z.to_nat (constants.GetK c)).
  set (sorted := sort_Slice lessDistance ds).
  assert (Hperm : sorted ≡ₚ ds) by apply sort_Slice_perm.
  assert (Hlen : length (DNode <$> take k sorted)
                 = Nat.min k (length (allNodes rt))).
  { rewrite length_fmap, length_take, Hperm, <- Hnodes, length_fmap. done. }
  split_and!.
  - rewrite Hlen. unfold k. lia.
  - done.
  - rewrite <- Hnodes, <- Hperm. apply fmap_submseteq, submseteq_take.
  - exists (Distance <$> take k sorted). split.
    + apply Forall2_fmap, Forall_Forall2_diag, Forall_take.
      by rewrite Hperm.
    + apply (StronglySorted_fmap _ (fun a b => Distance a <= Distance b)); [done|].
      apply (StronglySorted_app_1_l _ _ (drop k sorted)).
      rewrite take_drop. apply (sort_Slice_sorted _ Distance).
Qed.

End FindClosest.

(** ** The order of the result of [FindClosestNodes] *)




(** ** Valid identifiers decode *)

Lemma isHex_upperByte c :
  Strings.isHex c = true ->
  exists d, Big.digitVal (Strings.upperByte c) = Some d
            /\ (d <? 16) = true
            /\ Ascii.eqb (Strings.upperByte c) "-" = false
            /\ Ascii.eqb (Strings.upperByte c) "+" = false.
Proof.
  destruct c as [[] [] [] [] [] [] [] []]; vm_compute; intros Hc;
    try discriminate Hc; eexists; repeat split.
Qed.

Lemma scanDigits_allHex s acc :
  Strings.allHex s = true -> is_Some (Big.scanDigits (Strings.ToUpper s) acc).
Proof.
  revert acc. induction s as [|c s IH]; intros acc; simpl; [by eexists|].
  intros [Hc Hs]%andb_prop.
  destruct (isHex_upperByte c Hc) as (d & -> & -> & _). by apply IH.
Qed.

Lemma allHex_decodeHex s :
  s <> "" -> Strings.allHex s = true -> is_Some (decodeHex s).
Proof.
  intros Hne Hs. unfold decodeHex.
  destruct s as [|c s]; [done|].
  assert (Hscan := scanDigits_allHex (String c s) 0 Hs).
  simpl in Hs. apply andb_prop in Hs as [Hc _].
  destruct (isHex_upperByte c Hc) as (d & _ & _ & Hminus & Hplus).
  unfold Big.SetString16. cbn [Strings.ToUpper] in *.
  rewrite Hminus, Hplus. destruct Hscan as [x ->]. by eexists.
Qed.

Lemma ValidateID_ok id :
  validators.ValidateID id validators.HexadecimalValidator = None ->
  String.length id = 40%nat /\ Strings.allHex id = true.
Proof.
  unfold validators.ValidateID, validators.HexadecimalValidator.
  cbn [validators.Length validators.Pattern].
  destruct (Nat.eqb_spec (String.length id) 40) as [Hlen|]; [|done].
  destruct (Strings.allHex id); done.
Qed.

Lemma ValidateID_nonempty id :
  validators.ValidateID id validators.HexadecimalValidator = None ->
  String.eqb id "" = false.
Proof.
  intros [Hlen _]%ValidateID_ok. destruct id; [discriminate Hlen|done].
Qed.

Lemma ValidateID_decodeHex id :
  validators.ValidateID id validators.HexadecimalValidator = None ->
  is_Some (decodeHex id).
Proof.
  intros Hv. destruct (ValidateID_ok id Hv) as [Hlen Hhex].
  apply allHex_decodeHex; [|done]. intros ->. discriminate Hlen.
Qed.

(** ** STORE *)

(** C2: for a well-formed STORE request — method POST, a key that passes
    [ValidateID], a non-empty value — on a table whose ids decode and with
    [k >= 0], the handler computes [closest = FindClosestNodes key]; when
    the id of the local node occurs in [closest] it answers 201 and the
    store it leaves is the old one after [Set key value]: it holds [value]
    under [key] and what it held before under every other key; otherwise it
    answers 200 with [closest] and leaves the store as it was. *)
Theorem StoreHandler_proximity `{SliceSorter} (c : constants.Vars) (node : Node)
    (storage : KeyValueStore) (rt : RoutingTable) (key value : string)
    (Hkey : validators.ValidateID key validators.HexadecimalValidator = None)
    (Hvalue : value <> "")
    (Hk : 0 <= constants.GetK c)
    (Hids : Forall (fun n => is_Some (decodeHex (ID n))) (allNodes rt)) :
  exists closest,
    FindClosestNodes c rt key (ID node) = Ok closest
    /\ (ID node ∈ (ID <$> closest) ->
        exists storage',
          StoreHandler c {| storeMethod := "POST"; storeBody := Parsed key value |}
                       node storage rt
          = Ok ({| StatusCode := StatusCreated;
                   Payload := Text ("Stored key: " ++ key ++ ", value: " ++ value) |},
                storage')
          /\ storage' = KV.Set_ storage key value
          /\ KV.Get storage' key = Some value
          /\ (forall key', key' <> key -> KV.Get storage' key' = KV.Get storage key'))
    /\ (ID node ∉ (ID <$> closest) ->
        StoreHandler c {| storeMethod := "POST"; storeBody := Parsed key value |}
                     node storage rt
        = Ok ({| StatusCode := StatusOK; Payload := JSONNodes closest |}, storage)).
Proof.
  destruct (FindClosestNodes_total c rt key (ID node) Hk
              (ValidateID_decodeHex key Hkey) Hids) as [closest Hc].
  exists closest. split; [done|].
  assert (Hv : String.eqb value "" = false) by (by apply String.eqb_neq).
  assert (E : forall b, hasID (ID node) closest = b ->
    StoreHandler c {| storeMethod := "POST"; storeBody := Parsed key value |}
                 node storage rt
    = if negb b
      then Ok ({| StatusCode := StatusOK; Payload := JSONNodes closest |}, storage)
      else Ok ({| StatusCode := StatusCreated;
                  Payload := Text ("Stored key: " ++ key ++ ", value: " ++ value) |},
               KV.Set_ storage key value)).
  { intros b Hb. unfold StoreHandler. cbn [storeMethod storeBody].
    rewrite (ValidateID_nonempty key Hkey), Hv, Hkey, Hc.
    cbn. by rewrite Hb. }
  split; intros Hin.
  - exists (KV.Set_ storage key value). split_and!.
    + apply (E true). apply not_false_iff_true. rewrite hasID_false.
      intros Hn. exact (Hn Hin).
    + done.
    + unfold KV.Get, KV.Set_. simpl. apply lookup_insert_eq.
    + intros key' Hne. unfold KV.Get, KV.Set_. simpl. by apply lookup_insert_ne.
  - apply (E false). by apply hasID_false.
Qed.

(** ** FIND_VALUE *)

(** C7: for a well-formed FIND_VALUE request (a key that passes
    [ValidateID]) the answer is the stored value when the store has the
    key, and the list [FindClosestNodes key] when it has not; the payload
    has exactly one of the two shapes. *)
Theorem FindValueHandler_dichotomy `{SliceSorter} (c : constants.Vars) (node : Node)
    (storage : KeyValueStore) (rt : RoutingTable) (key : string)
    (Hkey : validators.ValidateID key validators.HexadecimalValidator = None)
    (Hk : 0 <= constants.GetK c)
    (Hids : Forall (fun n => is_Some (decodeHex (ID n))) (allNodes rt)) :
  match KV.Get storage key with
  | Some value =>
      FindValueHandler c key node storage rt
      = Ok {| StatusCode := StatusOK; Payload := JSONString value |}
  | None =>
      exists closest,
        FindClosestNodes c rt key (ID node) = Ok closest
        /\ FindValueHandler c key node storage rt
           = Ok {| StatusCode := StatusOK; Payload := JSONNodes closest |}
  end.
Proof.
  unfold FindValueHandler, KV.Get.
  rewrite (ValidateID_nonempty key Hkey), Hkey.
  destruct (Store storage !! key) as [value|]; [done|].
  destruct (FindClosestNodes_total c rt key (ID node) Hk
              (ValidateID_decodeHex key Hkey) Hids) as [closest Hc].
  exists closest. by rewrite Hc.
Qed.

Lemma StoreHandler_proximity_witness :
  exists closest,
    FindClosestNodes Samples.k3 Samples.selfTable Samples.someKey
                     (ID Samples.localNode) = Ok closest
    /\ ID Samples.localNode ∈ (ID <$> closest)
    /\ exists storage',
         StoreHandler Samples.k3
           {| storeMethod := "POST"; storeBody := Parsed Samples.someKey "hello" |}
           Samples.localNode Samples.emptyStore Samples.selfTable
         = Ok ({| StatusCode := StatusCreated;
                  Payload := Text ("Stored key: " ++ Samples.someKey
                                   ++ ", value: " ++ "hello") |},
               storage')
         /\ KV.Get storage' Samples.someKey = Some "hello".
Proof.
  destruct (StoreHandler_proximity Samples.k3 Samples.localNode Samples.emptyStore
              Samples.selfTable Samples.someKey "hello")
    as (closest & Hc & Haccept & _).
  - vm_compute. reflexivity.
  - discriminate.
  - vm_compute. discriminate.
  - apply (bool_decide_unpack _). vm_compute. exact I.
  - assert (Hin : ID Samples.localNode ∈ (ID <$> closest)).
    { vm_compute in Hc. injection Hc as <-. by left. }
    exists closest. split; [exact Hc|]. split; [exact Hin|].
    destruct (Haccept Hin) as (storage' & Hs & _ & Hget & _).
    exists storage'. by split.
Defined.

(** Scenario S4: a node that knows itself stores the pair and serves it. *)
Example StoreHandler_stores_when_self_is_closest :
  exists storage',
    StoreHandler Samples.k3
      {| storeMethod := "POST"; storeBody := Parsed Samples.someKey "hello" |}
      Samples.localNode Samples.emptyStore Samples.selfTable
    = Ok ({| StatusCode := StatusCreated;
             Payload := Text ("Stored key: " ++ Samples.someKey ++ ", value: hello") |},
          storage')
    /\ KV.Get storage' Samples.someKey = Some "hello"
    /\ FindValueHandler Samples.k3 Samples.someKey Samples.localNode storage'
         Samples.selfTable
       = Ok {| StatusCode := StatusOK; Payload := JSONString "hello" |}.
Proof.
  exists (KV.Set_ Samples.emptyStore Samples.someKey "hello").
  split; [vm_compute; reflexivity|].
  assert (G : KV.Get (KV.Set_ Samples.emptyStore Samples.someKey "hello")
                Samples.someKey = Some "hello")
    by (unfold KV.Get, KV.Set_; simpl; apply lookup_insert_eq).
  split; [exact G|].
  unfold FindValueHandler. unfold KV.Get in G. rewrite G.
  vm_compute. reflexivity.
Qed.

(** Scenario S5: a node that only knows other peers answers with them and
    stores nothing. *)
Example StoreHandler_redirects_when_self_is_unknown :
  StoreHandler Samples.k3
    {| storeMethod := "POST"; storeBody := Parsed Samples.someKey "x" |}
    Samples.localNode Samples.emptyStore Samples.tieTable
  = Ok ({| StatusCode := StatusOK;
           Payload := JSONNodes [Samples.contact Samples.peerLower;
                                 Samples.contact Samples.peerUpper] |},
        Samples.emptyStore).
Proof. vm_compute. reflexivity. Qed.

Lemma FindValueHandler_dichotomy_witness :
  match KV.Get Samples.emptyStore Samples.someKey with
  | Some value =>
      FindValueHandler Samples.k3 Samples.someKey Samples.localNode
        Samples.emptyStore Samples.tieTable
      = Ok {| StatusCode := StatusOK; Payload := JSONString value |}
  | None =>
      exists closest,
        FindClosestNodes Samples.k3 Samples.tieTable Samples.someKey
          (ID Samples.localNode) = Ok closest
        /\ FindValueHandler Samples.k3 Samples.someKey Samples.localNode
             Samples.emptyStore Samples.tieTable
           = Ok {| StatusCode := StatusOK; Payload := JSONNodes closest |}
  end.
Proof.
  apply (FindValueHandler_dichotomy Samples.k3 Samples.localNode
           Samples.emptyStore Samples.tieTable Samples.someKey).
  - vm_compute. reflexivity.
  - vm_compute. discriminate.
  - apply (bool_decide_unpack _). vm_compute. exact I.
Defined.

(** ** PING *)

Lemma PingHandler_anonymous node storage rt host :
  PingHandler {| pingQueryID := ""; pingQueryPort := ""; pingRemoteHost := host |}
              node storage rt
  = Ok (pong node, rt).
Proof. reflexivity. Qed.

(** A PING that names both an id and a port is answered 400, and the table
    is left alone, when the port does not parse as an integer or lies
    outside [1 .. 65535]. *)
Lemma PingHandler_bad_port id port host node storage rt :
  id <> "" -> port <> "" ->
  match strconv.Atoi port with
  | Some p => p <= 0 \/ 65535 < p
  | None => True
  end ->
  PingHandler {| pingQueryID := id; pingQueryPort := port; pingRemoteHost := host |}
              node storage rt
  = Ok (httpError "Invalid UDP port provided" StatusBadRequest, rt).
Proof.
  intros Hid%String.eqb_neq Hport%String.eqb_neq Hbad.
  unfold PingHandler. cbn [pingQueryID pingQueryPort pingRemoteHost].
  rewrite Hid, Hport. cbn [negb andb].
  destruct (strconv.Atoi port) as [p|]; [|done].
  destruct (Z.leb_spec p 0); [done|].
  destruct (Z.ltb_spec 65535 p); [done|lia].
Qed.

(** C3 (what the code does): an id that comes without a port is not
    refused — the handler answers 200 with the pong and leaves the table
    alone, for every id, peer address, node, store and table; and an id
    that fails [ValidateID] is inserted all the same when the port is
    good. *)
Theorem PingHandler_identification_not_checked :
  (forall (id : string) (host : option string) (node : Node)
          (storage : KeyValueStore) (rt : RoutingTable),
      PingHandler {| pingQueryID := id; pingQueryPort := ""; pingRemoteHost := host |}
                  node storage rt
      = Ok (pong node, rt))
  /\ validators.ValidateID Samples.shortID validators.HexadecimalValidator
     = Some validators.InvalidLength
  /\ exists rt',
       PingHandler {| pingQueryID := Samples.shortID; pingQueryPort := "8081";
                      pingRemoteHost := Some "127.0.0.1" |}
                   Samples.localNode Samples.emptyStore
                   (NewRoutingTable Samples.k3 Samples.localID)
       = Ok (pong Samples.localNode, rt')
       /\ allNodes rt'
          = [ {| ID := Samples.shortID; IP := "127.0.0.1"; Port := 8081;
                 LastSeen := 0 |} ].
Proof.
  split; [|split].
  - intros id host node storage rt. unfold PingHandler.
    cbn [pingQueryID pingQueryPort]. by rewrite andb_false_r.
  - vm_compute. reflexivity.
  - eexists. split; vm_compute; reflexivity.
Qed.

(** ** Join *)

Lemma JoinNetwork_missing_node_id node rt ip portText port message :
  Split ":" (ip ++ ":" ++ portText) = [ip; portText] ->
  strconv.Atoi portText = Some port ->
  JoinNetwork (fun _ => GetResponse StatusOK (Some (message, ""))) node rt
              (ip ++ ":" ++ portText)
  = Ok (Some MissingNodeID, rt).
Proof. intros Hs Hp. unfold JoinNetwork. by rewrite Hs, Hp. Qed.

(** C8 (what the code does): the only test on the [node_id] of the PONG
    is that it is not empty.  A [node_id] that fails [ValidateID] but is
    hexadecimal is inserted and the join succeeds; one that is not
    hexadecimal makes the join panic instead of returning an error. *)
Theorem JoinNetwork_node_id_not_validated :
  validators.ValidateID Samples.shortID validators.HexadecimalValidator
  = Some validators.InvalidLength
  /\ (exists rt',
        JoinNetwork Samples.pongShortID Samples.localNode
          (NewRoutingTable Samples.k3 Samples.localID) "127.0.0.1:8080"
        = Ok (None, rt')
        /\ allNodes rt'
           = [ {| ID := Samples.shortID; IP := "127.0.0.1"; Port := 8080;
                  LastSeen := 0 |} ])
  /\ JoinNetwork Samples.pongNotHex Samples.localNode
       (NewRoutingTable Samples.k3 Samples.localID) "127.0.0.1:8080"
     = Panic NilPointerDereference.
Proof.
  split; [vm_compute; reflexivity|]. split.
  - eexists. split; vm_compute; reflexivity.
  - vm_compute. reflexivity.
Qed.

(** ** Instances of the statements above *)

Lemma calculateXORDistance_case_insensitive_witness :
  calculateXORDistance Samples.localID Samples.peerLower
  = calculateXORDistance Samples.localID Samples.peerUpper
  /\ bucketIndexFor Samples.localID Samples.peerLower
     = bucketIndexFor Samples.localID Samples.peerUpper
  /\ (forall nodes : list Node,
        hasID Samples.peerLower nodes = true
        <-> exists n, n ∈ nodes /\ ID n = Samples.peerLower).
Proof.
  apply (calculateXORDistance_case_insensitive
           Samples.localID Samples.peerLower Samples.localID Samples.peerUpper).
  - vm_compute. reflexivity.
  - vm_compute. reflexivity.
Defined.

(** Both spellings of one number sit side by side in one bucket. *)
Example case_variants_are_both_kept :
  Buckets Samples.tieTable !! 159%nat
  = Some {| Nodes := [Samples.contact Samples.peerLower;
                      Samples.contact Samples.peerUpper];
            MaxSize := 3 |}.
Proof. vm_compute. reflexivity. Qed.


Lemma AddNodeToRoutingTable_full_bucket_FIFO_witness :
  exists rt',
    AddNodeToRoutingTable Samples.fullTable (Samples.contact Samples.peer3)
      Samples.localID = Ok rt'
    /\ Buckets rt' !! 159%nat
       = Some {| Nodes := [Samples.contact Samples.peer2] ++ [Samples.contact Samples.peer3];
                 MaxSize := 2 |}
    /\ Z.of_nat (length ([Samples.contact Samples.peer2]
                         ++ [Samples.contact Samples.peer3])) = 2
    /\ (forall j, j <> 159%nat -> Buckets rt' !! j = Buckets Samples.fullTable !! j).
Proof.
  apply (AddNodeToRoutingTable_full_bucket_FIFO Samples.fullTable
           (Samples.contact Samples.peer3) Samples.localID
           730750818665451459101842416358141509827966271650
           {| Nodes := [Samples.contact Samples.peer1; Samples.contact Samples.peer2];
              MaxSize := 2 |}
           (Samples.contact Samples.peer1) [Samples.contact Samples.peer2]).
  - vm_compute. reflexivity.
  - vm_compute. reflexivity.
  - reflexivity.
  - reflexivity.
  - apply (bool_decide_unpack _). vm_compute. exact I.
Defined.

(** The earlier FIND_VALUE, which the server no longer registers, has a
    third kind of answer. *)
Example Legacy_FindValueHandler_not_found :
  Legacy.FindValueHandler Samples.someKey Samples.emptyStore
  = httpError ("Key '" ++ Samples.someKey ++ "' not found") Legacy.StatusNotFound.
Proof. vm_compute. reflexivity. Qed.

(** * Further properties of the code *)

#[global] Instance Node_eq_dec : EqDecision Node.
Proof. solve_decision. Defined.

(** ** The XOR metric *)

(** The distance is the same in both directions, for all strings:
    either both calls panic or both return the same number. *)
Theorem calculateXORDistance_symmetric (id1 id2 : string) :
  calculateXORDistance id1 id2 = calculateXORDistance id2 id1.
Proof.
  rewrite !calculateXORDistance_hexValue.
  destruct (hexValue id1), (hexValue id2); try done.
  by rewrite Z.lxor_comm.
Qed.

(** The distance between two ids is [0] exactly when they stand for
    the same number, and going through a third id composes by XOR. *)
Theorem calculateXORDistance_zero_and_through (a b c : string) (dab dbc : Z)
    (Hab : calculateXORDistance a b = Ok dab)
    (Hbc : calculateXORDistance b c = Ok dbc) :
  (dab = 0 <-> hexValue a = hexValue b)
  /\ calculateXORDistance a c = Ok (Z.lxor dab dbc).
Proof.
  rewrite calculateXORDistance_hexValue in *.
  destruct (hexValue a) as [x|]; [|done].
  destruct (hexValue b) as [y|]; [|done].
  destruct (hexValue c) as [z|]; [|done].
  injection Hab as <-. injection Hbc as <-. split.
  - split; [intros ->%Z.lxor_eq; done|]. intros [= ->]. apply Z.lxor_nilpotent.
  - f_equal. rewrite Z.lxor_assoc, <- (Z.lxor_assoc y y z), Z.lxor_nilpotent.
    by rewrite Z.lxor_0_l.
Qed.

Lemma calculateXORDistance_zero_and_through_witness :
  (730750818665451459101842416358141509827966271651 = 0
   <-> hexValue Samples.localID = hexValue Samples.peer2)
  /\ calculateXORDistance Samples.localID Samples.peer3
     = Ok (Z.lxor 730750818665451459101842416358141509827966271651 1).
Proof.
  apply (calculateXORDistance_zero_and_through
           Samples.localID Samples.peer2 Samples.peer3).
  - vm_compute. reflexivity.
  - vm_compute. reflexivity.
Defined.

(** For a distance [d > 0] the bucket index is the position of the
    most significant set bit: [2^i <= d < 2^(i+1)]. *)
Lemma getBucketIndex_msb (d : Z) (Hd : 0 < d) :
  0 <= getBucketIndex d
  /\ 2 ^ getBucketIndex d <= d < 2 ^ (getBucketIndex d + 1).
Proof.
  unfold getBucketIndex, Big.BitLen.
  destruct (Z.eqb_spec d 0); [lia|].
  rewrite Z.abs_eq by lia.
  replace (Z.log2 d + 1 - 1) with (Z.log2 d) by lia.
  pose proof (Z.log2_nonneg d).
  pose proof (Z.log2_spec d Hd) as [H1 H2].
  replace (Z.succ (Z.log2 d)) with (Z.log2 d + 1) in H2 by lia. lia.
Qed.

(** ** What [decodeHex] accepts *)

Lemma isHex_digit_range c :
  Strings.isHex c = true ->
  exists d, Big.digitVal (Strings.upperByte c) = Some d /\ 0 <= d < 16.
Proof.
  destruct c as [[] [] [] [] [] [] [] []]; intros Hc; vm_compute in Hc;
    try discriminate Hc; eexists; (split; [vm_compute; reflexivity|lia]).
Qed.

Lemma scanDigits_value s acc :
  Strings.allHex s = true ->
  exists w, Big.scanDigits (Strings.ToUpper s) acc
            = Some (acc * 16 ^ Z.of_nat (String.length s) + w)
            /\ 0 <= w < 16 ^ Z.of_nat (String.length s).
Proof.
  revert acc. induction s as [|c s IH]; intros acc Hs.
  - exists 0. simpl. split; [f_equal; lia|lia].
  - simpl in Hs. apply andb_prop in Hs as [Hc Hs].
    destruct (isHex_digit_range c Hc) as (d & Hd & Hr).
    destruct (IH (acc * 16 + d) Hs) as (w & Hw & Hwr).
    cbn [Strings.ToUpper Big.scanDigits String.length]. rewrite Hd.
    destruct (Z.ltb_spec d 16); [|lia]. rewrite Hw.
    rewrite Nat2Z.inj_succ, Z.pow_succ_r by lia.
    set (p := 16 ^ Z.of_nat (String.length s)) in *.
    exists (d * p + w). split; [f_equal; lia|nia].
Qed.

Lemma hexValue_allHex s :
  s <> "" -> Strings.allHex s = true ->
  exists v, hexValue s = Some v /\ 0 <= v < 16 ^ Z.of_nat (String.length s).
Proof.
  intros Hne Hs. unfold hexValue.
  destruct (scanDigits_value s 0 Hs) as (w & Hw & Hr).
  destruct s as [|c s]; [done|].
  simpl in Hs. apply andb_prop in Hs as [Hc _].
  destruct (isHex_upperByte c Hc) as (d & _ & _ & Hminus & Hplus).
  unfold Big.SetString16. cbn [Strings.ToUpper] in *.
  rewrite Hminus, Hplus, Hw. exists w. split; [|done].
  rewrite Z.mul_0_l, Z.add_0_l. simpl. f_equal. lia.
Qed.

Lemma Bytes_opp x : Big.Bytes (- x) = Big.Bytes x.
Proof.
  unfold Big.Bytes, Big.BitLen. rewrite Z.abs_opp.
  destruct (Z.eqb_spec x 0), (Z.eqb_spec (- x) 0); try lia; done.
Qed.

(** X5: [decodeHex] reads more than identifiers: a sign in front of
    hexadecimal digits is accepted and dropped, and zeros in front do not
    count; such strings are at distance [0] from the plain one. *)
Theorem decodeHex_sign_and_zeros (s : string)
    (Hne : s <> "") (Hs : Strings.allHex s = true) :
  decodeHex (String "-" s) = decodeHex s
  /\ decodeHex (String "+" s) = decodeHex s
  /\ decodeHex (String "0" s) = decodeHex s
  /\ calculateXORDistance (String "-" s) s = Ok 0.
Proof.
  destruct (scanDigits_value s 0 Hs) as (w & Hw & Hr).
  rewrite Z.mul_0_l, Z.add_0_l in Hw.
  assert (Hplain : Big.SetString16 (Strings.ToUpper s) = Some w).
  { destruct s as [|c s]; [done|].
    pose proof Hs as Hs'. simpl in Hs'. apply andb_prop in Hs' as [Hc _].
    destruct (isHex_upperByte c Hc) as (d & _ & _ & Hminus & Hplus).
    unfold Big.SetString16. cbn [Strings.ToUpper] in *.
    by rewrite Hminus, Hplus, Hw. }
  assert (Hminus : decodeHex (String "-" s) = decodeHex s).
  { unfold decodeHex. rewrite Hplain.
    change (Strings.ToUpper (String "-" s)) with (String "-" (Strings.ToUpper s)).
    unfold Big.SetString16 at 1. cbn [Ascii.eqb Bool.eqb].
    destruct (Strings.ToUpper s) eqn:E; [by destruct s|].
    rewrite Hw. simpl. f_equal. apply Bytes_opp. }
  split; [exact Hminus|]. split; [|split].
  - unfold decodeHex. rewrite Hplain.
    change (Strings.ToUpper (String "+" s)) with (String "+" (Strings.ToUpper s)).
    unfold Big.SetString16 at 1. cbn [Ascii.eqb Bool.eqb].
    destruct (Strings.ToUpper s) eqn:E; [by destruct s|].
    by rewrite Hw.
  - unfold decodeHex. rewrite Hplain.
    change (Strings.ToUpper (String "0" s)) with (String "0" (Strings.ToUpper s)).
    unfold Big.SetString16 at 1. cbn [Ascii.eqb Bool.eqb].
    change (Big.scanDigits (String "0" (Strings.ToUpper s)) 0)
      with (Big.scanDigits (Strings.ToUpper s) 0).
    by rewrite Hw.
  - unfold calculateXORDistance. rewrite Hminus.
    destruct (decodeHex s) eqn:E.
    + unfold Big.Xor. by rewrite Z.lxor_nilpotent.
    + unfold decodeHex in E. by rewrite Hplain in E.
Qed.

Lemma decodeHex_sign_and_zeros_witness :
  decodeHex (String "-" Samples.localID) = decodeHex Samples.localID
  /\ decodeHex (String "+" Samples.localID) = decodeHex Samples.localID
  /\ decodeHex (String "0" Samples.localID) = decodeHex Samples.localID
  /\ calculateXORDistance (String "-" Samples.localID) Samples.localID = Ok 0.
Proof.
  apply (decodeHex_sign_and_zeros Samples.localID).
  - discriminate.
  - vm_compute. reflexivity.
Defined.

(** ** Valid identifiers and bucket indices *)

Lemma ValidateID_hexValue id :
  validators.ValidateID id validators.HexadecimalValidator = None ->
  exists v, hexValue id = Some v /\ 0 <= v < 2 ^ 160.
Proof.
  intros Hv. destruct (ValidateID_ok id Hv) as [Hlen Hhex].
  destruct (hexValue_allHex id) as (v & Hval & Hr); [|done|].
  - intros ->. discriminate Hlen.
  - exists v. split; [done|]. rewrite Hlen in Hr.
    assert (E : 16 ^ Z.of_nat 40 = 2 ^ 160) by (vm_compute; reflexivity).
    by rewrite E in Hr.
Qed.

Lemma lxor_lt_pow2 x y n :
  0 <= x < 2 ^ n -> 0 <= y < 2 ^ n -> 0 <= Z.lxor x y < 2 ^ n.
Proof.
  intros Hx Hy.
  assert (Hn : 0 <= Z.lxor x y) by (apply Z.lxor_nonneg; lia).
  split; [done|].
  destruct (Z.eq_dec (Z.lxor x y) 0) as [->|Hne]; [lia|].
  apply Z.log2_lt_pow2; [lia|].
  pose proof (Z.log2_lxor x y ltac:(lia) ltac:(lia)) as Hl.
  assert (Hlog : forall z, 0 <= z < 2 ^ n -> 0 < n -> Z.log2 z < n).
  { intros z Hz Hpos. destruct (Z.eq_dec z 0) as [->|]; [done|].
    apply Z.log2_lt_pow2; lia. }
  assert (Hpos : 0 < n).
  { destruct (Z.le_gt_cases n 0) as [Hle|]; [|done].
    assert (2 ^ n <= 1).
    { destruct (Z.eq_dec n 0) as [->|]; [done|]. rewrite Z.pow_neg_r; lia. }
    assert (x = 0) by lia. assert (y = 0) by lia. subst. done. }
  pose proof (Hlog x Hx Hpos). pose proof (Hlog y Hy Hpos). lia.
Qed.

Lemma bucketIndex_range x y :
  0 <= x < 2 ^ 160 -> 0 <= y < 2 ^ 160 -> x <> y ->
  0 <= getBucketIndex (Z.lxor x y) <= 159.
Proof.
  intros Hx Hy Hne.
  pose proof (lxor_lt_pow2 x y 160 Hx Hy) as [Hd0 Hd1].
  assert (Z.lxor x y <> 0) by (intros E%Z.lxor_eq; done).
  destruct (getBucketIndex_msb (Z.lxor x y) ltac:(lia)) as (Hi0 & Hlo & Hhi).
  assert (getBucketIndex (Z.lxor x y) < 160).
  { apply (Z.pow_lt_mono_r_iff 2); [lia|lia|lia]. }
  lia.
Qed.

(** For two identifiers that pass [ValidateID] the distance is
    computed without panic and the bucket index lies in [-1 .. 159]; it is
    [-1] exactly when both stand for the same number. *)
Theorem valid_ids_bucket_index (localID id : string)
    (Hlocal : validators.ValidateID localID validators.HexadecimalValidator = None)
    (Hid : validators.ValidateID id validators.HexadecimalValidator = None) :
  exists d,
    calculateXORDistance localID id = Ok d
    /\ -1 <= getBucketIndex d <= 159
    /\ (getBucketIndex d = -1 <-> hexValue localID = hexValue id).
Proof.
  destruct (ValidateID_hexValue localID Hlocal) as (x & Hx & Hxr).
  destruct (ValidateID_hexValue id Hid) as (y & Hy & Hyr).
  exists (Z.lxor x y). rewrite calculateXORDistance_hexValue, Hx, Hy.
  split; [done|].
  destruct (Z.eq_dec x y) as [->|Hne].
  - rewrite Z.lxor_nilpotent. split; [vm_compute; split; discriminate|]. done.
  - pose proof (bucketIndex_range x y Hxr Hyr Hne). split; [lia|].
    split; [lia|]. intros [= ->]. done.
Qed.

Lemma valid_ids_bucket_index_witness :
  exists d,
    calculateXORDistance Samples.localID Samples.peer1 = Ok d
    /\ -1 <= getBucketIndex d <= 159
    /\ (getBucketIndex d = -1 <-> hexValue Samples.localID = hexValue Samples.peer1).
Proof.
  apply (valid_ids_bucket_index Samples.localID Samples.peer1).
  - vm_compute. reflexivity.
  - vm_compute. reflexivity.
Defined.

(** ** The effect of one [AddNodeToRoutingTable] *)

Lemma AddNodeToRoutingTable_inv rt rt' target localID :
  AddNodeToRoutingTable rt target localID = Ok rt' ->
  exists (bi : Z) (b' : Bucket),
    bucketIndexFor localID (ID target) = Ok bi
    /\ 0 <= bi
    /\ (Z.to_nat bi < length (Buckets rt))%nat
    /\ Buckets rt' = <[Z.to_nat bi := b']> (Buckets rt)
    /\ ID target ∈ (ID <$> Nodes b').
Proof.
  intros Hadd. rewrite AddNodeToRoutingTable_unfold in Hadd.
  destruct (bucketIndexFor localID (ID target)) as [bi|] eqn:Hbi; [|done].
  unfold mbind, result_bind, rbind in Hadd; cbv beta iota in Hadd.
  destruct (index (Buckets rt) bi) as [b|] eqn:Hb; [|done].
  apply index_Ok in Hb as [Hpos Hb].
  pose proof (lookup_lt_Some _ _ _ Hb) as Hlt.
  assert (Hlast : forall l : list Node, ID target ∈ (ID <$> (l ++ [target])%list)).
  { intros l. rewrite fmap_app. apply elem_of_app. right. by left. }
  destruct (hasID (ID target) (Nodes b)) eqn:Hdup.
  - injection Hadd as <-. exists bi, b. split_and!; try done.
    + by rewrite list_insert_id.
    + apply hasID_spec in Hdup as (n & Hn & <-). by apply list_elem_of_fmap_2.
  - destruct (Z.ltb_spec (Z.of_nat (length (Nodes b))) (MaxSize b)).
    + injection Hadd as <-. eexists bi, _. split_and!; try done. apply Hlast.
    + destruct (Nodes b) as [|h rest] eqn:Hnodes; [done|].
      injection Hadd as <-. eexists bi, _. split_and!; try done. apply Hlast.
Qed.

(** A call that returns has changed at most the bucket the distance
    selects: the number of buckets and the capacity stay, the id of the
    contact is in that bucket afterwards, and its list of contacts is the
    old one, the old one with the contact appended, or the old one without
    its head with the contact appended. *)
Theorem AddNodeToRoutingTable_effect (rt rt' : RoutingTable) (target : Node)
    (localID : string)
    (Hadd : AddNodeToRoutingTable rt target localID = Ok rt') :
  exists (bi : Z) (b b' : Bucket),
    bucketIndexFor localID (ID target) = Ok bi
    /\ 0 <= bi
    /\ Buckets rt !! Z.to_nat bi = Some b
    /\ Buckets rt' = <[Z.to_nat bi := b']> (Buckets rt)
    /\ MaxSize b' = MaxSize b
    /\ ID target ∈ (ID <$> Nodes b')
    /\ (Nodes b' = Nodes b
        \/ Nodes b' = (Nodes b ++ [target])%list
        \/ exists h rest, Nodes b = h :: rest /\ Nodes b' = (rest ++ [target])%list).
Proof.
  rewrite AddNodeToRoutingTable_unfold in Hadd.
  destruct (bucketIndexFor localID (ID target)) as [bi|] eqn:Hbi; [|done].
  unfold mbind, result_bind, rbind in Hadd; cbv beta iota in Hadd.
  destruct (index (Buckets rt) bi) as [b|] eqn:Hb; [|done].
  apply index_Ok in Hb as [Hpos Hb].
  assert (Hlast : forall l : list Node, ID target ∈ (ID <$> (l ++ [target])%list)).
  { intros l. rewrite fmap_app. apply elem_of_app. right. by left. }
  destruct (hasID (ID target) (Nodes b)) eqn:Hdup.
  - injection Hadd as <-. exists bi, b, b. split_and!; try done.
    + by rewrite list_insert_id.
    + apply hasID_spec in Hdup as (n & Hn & <-). by apply list_elem_of_fmap_2.
    + by left.
  - destruct (Z.ltb_spec (Z.of_nat (length (Nodes b))) (MaxSize b)).
    + injection Hadd as <-. eexists bi, b, _. split_and!; try done.
      * apply Hlast.
      * right. by left.
    + destruct (Nodes b) as [|h rest] eqn:Hnodes; [done|].
      injection Hadd as <-. eexists bi, b, _. split_and!; try done.
      * apply Hlast.
      * right. right. by exists h, rest.
Qed.

Lemma AddNodeToRoutingTable_effect_witness :
  exists (bi : Z) (b b' : Bucket),
    bucketIndexFor Samples.localID (ID (Samples.contact Samples.peer3)) = Ok bi
    /\ 0 <= bi
    /\ Buckets Samples.fullTable !! Z.to_nat bi = Some b
    /\ Buckets (addOrKeep Samples.localID Samples.fullTable
                  (Samples.contact Samples.peer3))
       = <[Z.to_nat bi := b']> (Buckets Samples.fullTable)
    /\ MaxSize b' = MaxSize b
    /\ ID (Samples.contact Samples.peer3) ∈ (ID <$> Nodes b')
    /\ (Nodes b' = Nodes b
        \/ Nodes b' = (Nodes b ++ [Samples.contact Samples.peer3])%list
        \/ exists h rest, Nodes b = h :: rest
                          /\ Nodes b' = (rest ++ [Samples.contact Samples.peer3])%list).
Proof.
  apply (AddNodeToRoutingTable_effect Samples.fullTable
           (addOrKeep Samples.localID Samples.fullTable (Samples.contact Samples.peer3))
           (Samples.contact Samples.peer3) Samples.localID).
  vm_compute. reflexivity.
Defined.

(** Adding again a contact with an id the call has just placed is a
    no-op: the table comes back as it is, nothing is refreshed or moved. *)
Theorem AddNodeToRoutingTable_idempotent (rt rt' : RoutingTable)
    (target again : Node) (localID : string)
    (Hadd : AddNodeToRoutingTable rt target localID = Ok rt')
    (Hsame : ID again = ID target) :
  AddNodeToRoutingTable rt' again localID = Ok rt'.
Proof.
  destruct (AddNodeToRoutingTable_inv rt rt' target localID Hadd)
    as (bi & b' & Hbi & Hpos & Hlt & Hrt' & Hin).
  rewrite AddNodeToRoutingTable_unfold, Hsame, Hbi.
  unfold mbind, result_bind, rbind; cbv beta iota.
  assert (Hidx : index (Buckets rt') bi = Ok b').
  { apply index_Ok. split; [done|]. rewrite Hrt'.
    by apply list_lookup_insert_eq. }
  rewrite Hidx.
  destruct (hasID (ID target) (Nodes b')) eqn:Hdup; [done|].
  by apply hasID_false in Hdup.
Qed.

Lemma AddNodeToRoutingTable_idempotent_witness :
  AddNodeToRoutingTable
    (addOrKeep Samples.localID Samples.fullTable (Samples.contact Samples.peer3))
    {| ID := Samples.peer3; IP := "10.9.9.9"; Port := 1; LastSeen := 7 |}
    Samples.localID
  = Ok (addOrKeep Samples.localID Samples.fullTable (Samples.contact Samples.peer3)).
Proof.
  apply (AddNodeToRoutingTable_idempotent Samples.fullTable _
           (Samples.contact Samples.peer3)).
  - vm_compute. reflexivity.
  - reflexivity.
Defined.

(** ** Tables built by [NewRoutingTable] and [AddNodeToRoutingTable] *)

Lemma addOrKeep_length localID rt target :
  length (Buckets (addOrKeep localID rt target)) = length (Buckets rt).
Proof.
  unfold addOrKeep.
  destruct (AddNodeToRoutingTable rt target localID) as [rt'|] eqn:E; [|done].
  apply AddNodeToRoutingTable_inv in E as (bi & b' & _ & _ & _ & -> & _).
  apply length_insert.
Qed.

Lemma addAll_length localID rt targets :
  length (Buckets (addAll localID rt targets)) = length (Buckets rt).
Proof.
  unfold addAll. revert rt. induction targets as [|t ts IH]; intros rt; [done|].
  simpl. by rewrite IH, addOrKeep_length.
Qed.

Lemma tableOK_not_local localID k rt n :
  tableOK localID k rt -> n ∈ allNodes rt ->
  ID n <> localID /\ hexValue (ID n) <> hexValue localID.
Proof.
  intros Hrt (i & b & Hb & Hn)%elem_of_allNodes_inv.
  pose proof (ok_index _ _ _ _ (Hrt _ _ Hb) n Hn) as Hidx.
  unfold bucketIndexFor in Hidx.
  rewrite calculateXORDistance_hexValue in Hidx.
  assert (Hv : hexValue (ID n) <> hexValue localID).
  { intros E. rewrite E in Hidx.
    destruct (hexValue localID) as [x|]; [|done].
    rewrite Z.lxor_nilpotent in Hidx. simpl in Hidx.
    injection Hidx as Hidx. rewrite getBucketIndex_0 in Hidx. lia. }
  split; [|done]. intros E. apply Hv. by rewrite E.
Qed.

(** A table built for a node never holds the id of the node itself, nor
    any other spelling of the same number. *)
Theorem built_table_excludes_local_id (c : constants.Vars) (nodeID localID : string)
    (targets : list Node) (n : Node)
    (Hk : 0 <= constants.GetK c)
    (Hn : n ∈ allNodes (addAll localID (NewRoutingTable c nodeID) targets)) :
  ID n <> localID /\ hexValue (ID n) <> hexValue localID.
Proof.
  eapply tableOK_not_local; [|exact Hn].
  apply tableOK_addAll. by apply tableOK_new.
Qed.

Lemma built_table_excludes_local_id_witness :
  ID (Samples.contact Samples.peer2) <> Samples.localID
  /\ hexValue (ID (Samples.contact Samples.peer2)) <> hexValue Samples.localID.
Proof.
  apply (built_table_excludes_local_id Samples.k2 Samples.localID Samples.localID
           [Samples.contact Samples.peer1; Samples.contact Samples.peer2;
            Samples.localNode]).
  - vm_compute. discriminate.
  - apply (bool_decide_unpack _). vm_compute. exact I.
Defined.

(** On a table built for a node whose id passes [ValidateID], with bucket
    size [k >= 1], [AddNodeToRoutingTable] returns for every contact whose
    id passes [ValidateID] and is not the number of the local id: no index
    is out of range and no empty bucket is sliced. *)
Theorem AddNodeToRoutingTable_returns_on_built_table (c : constants.Vars)
    (localID : string) (targets : list Node) (target : Node)
    (Hk : 1 <= constants.GetK c)
    (Hlocal : validators.ValidateID localID validators.HexadecimalValidator = None)
    (Htarget : validators.ValidateID (ID target) validators.HexadecimalValidator = None)
    (Hdiff : hexValue localID <> hexValue (ID target)) :
  exists rt',
    AddNodeToRoutingTable (addAll localID (NewRoutingTable c localID) targets)
                          target localID = Ok rt'.
Proof.
  set (rt := addAll localID (NewRoutingTable c localID) targets).
  assert (Hrt : tableOK localID (constants.GetK c) rt).
  { apply tableOK_addAll. apply tableOK_new; [done|lia]. }
  assert (Hlen : length (Buckets rt) = 160%nat).
  { unfold rt. rewrite addAll_length. unfold NewRoutingTable. simpl.
    rewrite length_replicate.
    destruct (ValidateID_ok localID Hlocal) as [-> _]. done. }
  destruct (ValidateID_hexValue localID Hlocal) as (x & Hx & Hxr).
  destruct (ValidateID_hexValue (ID target) Htarget) as (y & Hy & Hyr).
  assert (Hne : x <> y) by (intros ->; apply Hdiff; by rewrite Hx, Hy).
  pose proof (bucketIndex_range x y Hxr Hyr Hne) as Hrange.
  unfold AddNodeToRoutingTable.
  rewrite calculateXORDistance_hexValue, Hx, Hy.
  unfold mbind, result_bind, rbind; cbv beta iota.
  set (bi := getBucketIndex (Z.lxor x y)) in *.
  destruct (lookup_lt_is_Some_2 (Buckets rt) (Z.to_nat bi)) as [b Hb]; [lia|].
  assert (Hidx : index (Buckets rt) bi = Ok b) by (apply index_Ok; split; [lia|done]).
  rewrite Hidx.
  destruct (hasID (ID target) (Nodes b)); [by eexists|].
  pose proof (ok_MaxSize _ _ _ _ (Hrt _ _ Hb)) as HM.
  destruct (Z.ltb_spec (Z.of_nat (length (Nodes b))) (MaxSize b)); [by eexists|].
  destruct (Nodes b) as [|h rest] eqn:Hnodes; [simpl in *; lia|]. by eexists.
Qed.

Lemma AddNodeToRoutingTable_returns_on_built_table_witness :
  exists rt',
    AddNodeToRoutingTable
      (addAll Samples.localID (NewRoutingTable Samples.k2 Samples.localID)
         [Samples.contact Samples.peer1; Samples.contact Samples.peer2])
      (Samples.contact Samples.peer3) Samples.localID = Ok rt'.
Proof.
  apply (AddNodeToRoutingTable_returns_on_built_table Samples.k2 Samples.localID
           [Samples.contact Samples.peer1; Samples.contact Samples.peer2]
           (Samples.contact Samples.peer3)).
  - vm_compute. discriminate.
  - vm_compute. reflexivity.
  - vm_compute. reflexivity.
  - vm_compute. discriminate.
Defined.

(** ** More on [FindClosestNodes] *)

(** The contacts that come back are the closest ones: the table is the
    result followed by the contacts left out, up to order, and no contact
    left out is closer to the target than one that came back. *)
Theorem FindClosestNodes_are_closest `{SliceSorter} (c : constants.Vars)
    (rt : RoutingTable) (queryID localID : string) (closest : list Node)
    (Hfind : FindClosestNodes c rt queryID localID = Ok closest) :
  exists others : list Node,
    (closest ++ others)%list ≡ₚ allNodes rt
    /\ forall n m dn dm,
         n ∈ closest -> m ∈ others ->
         calculateXORDistance queryID (ID n) = Ok dn ->
         calculateXORDistance queryID (ID m) = Ok dm ->
         dn <= dm.
Proof.
  apply FindClosestNodes_Ok in Hfind as (ds & Hds & Hk & ->).
  apply collectDistances_Ok in Hds as [Hnodes Hdist].
  set (k := Z.to_nat (constants.GetK c)).
  set (sorted := sort_Slice lessDistance ds).
  assert (Hperm : sorted ≡ₚ ds) by apply sort_Slice_perm.
  assert (Hsorted : StronglySorted (fun a b => Distance a <= Distance b)
                      (take k sorted ++ drop k sorted)).
  { rewrite take_drop. apply (sort_Slice_sorted _ Distance). }
  assert (Hall : Forall (fun nd => calculateXORDistance queryID (ID (DNode nd))
                                   = Ok (Distance nd)) sorted)
    by (by rewrite Hperm).
  exists (DNode <$> drop k sorted). split.
  - rewrite <- fmap_app, take_drop, Hperm. by rewrite Hnodes.
  - intros n m dn dm (nd & -> & Hnd)%list_elem_of_fmap
           (md & -> & Hmd)%list_elem_of_fmap Hdn Hdm.
    pose proof (StronglySorted_app_1_elem_of _ _ _ _ _ Hsorted Hnd Hmd) as Hle.
    rewrite Forall_forall in Hall.
    rewrite (Hall nd) in Hdn by (by eapply subseteq_take).
    rewrite (Hall md) in Hdm by (by eapply subseteq_drop).
    injection Hdn as <-. injection Hdm as <-. exact Hle.
Qed.

Lemma FindClosestNodes_are_closest_witness :
  exists others : list Node,
    ([Samples.contact Samples.peer2] ++ others)%list ≡ₚ allNodes Samples.fullTable
    /\ forall n m dn dm,
         n ∈ [Samples.contact Samples.peer2] -> m ∈ others ->
         calculateXORDistance Samples.peer3 (ID n) = Ok dn ->
         calculateXORDistance Samples.peer3 (ID m) = Ok dm ->
         dn <= dm.
Proof.
  apply (FindClosestNodes_are_closest constants.init Samples.fullTable
           Samples.peer3 Samples.localID).
  vm_compute. reflexivity.
Defined.

(** On a table without contacts every query is answered with the empty
    list, whatever the target string is, as long as [k >= 0]. *)
Theorem FindClosestNodes_empty_table `{SliceSorter} (c : constants.Vars)
    (rt : RoutingTable) (queryID localID : string)
    (Hk : 0 <= constants.GetK c) (Hempty : allNodes rt = []) :
  FindClosestNodes c rt queryID localID = Ok [].
Proof.
  unfold FindClosestNodes. rewrite Hempty. simpl.
  unfold mbind, result_bind, rbind.
  destruct (Z.ltb_spec (constants.GetK c) 0); [lia|].
  f_equal. pose proof (sort_Slice_perm _ lessDistance []) as Hp.
  apply Permutation_nil_r in Hp. rewrite Hp. by rewrite take_nil.
Qed.

Lemma FindClosestNodes_empty_table_witness :
  FindClosestNodes constants.init (NewRoutingTable constants.init Samples.localID)
    "not hexadecimal" Samples.localID = Ok [].
Proof.
  apply (FindClosestNodes_empty_table constants.init).
  - vm_compute. discriminate.
  - vm_compute. reflexivity.
Defined.

(** After [SetK] with a negative value every query on a table whose ids
    decode panics in [make]: no list is returned. *)
Theorem FindClosestNodes_negative_k `{SliceSorter} (c : constants.Vars)
    (rt : RoutingTable) (queryID localID : string)
    (Hk : constants.GetK c < 0)
    (Hquery : is_Some (decodeHex queryID))
    (Hids : Forall (fun n => is_Some (decodeHex (ID n))) (allNodes rt)) :
  FindClosestNodes c rt queryID localID
  = Panic (MakeSliceCapOutOfRange (constants.GetK c)).
Proof.
  destruct (collectDistances_total queryID (allNodes rt) Hquery Hids) as [ds Hds].
  unfold FindClosestNodes, mbind, result_bind, rbind. rewrite Hds.
  destruct (Z.ltb_spec (constants.GetK c) 0); [done|lia].
Qed.

Lemma FindClosestNodes_negative_k_witness :
  FindClosestNodes (constants.SetK (-1) constants.init) Samples.tieTable
    Samples.targetID Samples.localID
  = Panic (MakeSliceCapOutOfRange
             (constants.GetK (constants.SetK (-1) constants.init))).
Proof.
  apply (FindClosestNodes_negative_k (constants.SetK (-1) constants.init)).
  - vm_compute. reflexivity.
  - vm_compute. eexists. reflexivity.
  - apply (bool_decide_unpack _). vm_compute. exact I.
Defined.

(** ** The key-value store *)

(** What was stored under a key is found under it, the latest value wins,
    and the other keys keep what they had. *)
Theorem FindValue_StoreKeyValue (kvs : KeyValueStore) (key key' value : string) :
  FindValue (StoreKeyValue kvs key value) key'
  = if decide (key = key') then Some value else FindValue kvs key'.
Proof.
  unfold FindValue, StoreKeyValue, KV.Get, KV.Set_. simpl.
  destruct (decide (key = key')) as [->|Hne].
  - apply lookup_insert_eq.
  - by apply lookup_insert_ne.
Qed.

(** ** STORE: what reaches the store *)

(** Whatever the request is, the store changes only together with the
    answer 201, and then by exactly one [Set] of a key that passes
    [ValidateID] with a non-empty value sent by POST. *)
Theorem StoreHandler_store_changes_only_on_201 `{SliceSorter} (c : constants.Vars)
    (r : StoreRequest) (node : Node) (storage storage' : KeyValueStore)
    (rt : RoutingTable) (resp : Response)
    (Hrun : StoreHandler c r node storage rt = Ok (resp, storage')) :
  (StatusCode resp <> StatusCreated /\ storage' = storage)
  \/ (StatusCode resp = StatusCreated
      /\ storeMethod r = "POST"
      /\ exists key value,
           storeBody r = Parsed key value
           /\ validators.ValidateID key validators.HexadecimalValidator = None
           /\ value <> ""
           /\ storage' = KV.Set_ storage key value).
Proof.
  unfold StoreHandler in Hrun.
  destruct (String.eqb_spec (storeMethod r) "POST") as [Hm|Hm]; simpl in Hrun;
    [|injection Hrun as <- <-; by left].
  destruct (storeBody r) as [| |key value] eqn:Hbody;
    try (injection Hrun as <- <-; by left).
  destruct (String.eqb_spec key "") as [|Hkey]; simpl in Hrun;
    [injection Hrun as <- <-; by left|].
  destruct (String.eqb_spec value "") as [|Hvalue]; simpl in Hrun;
    [injection Hrun as <- <-; by left|].
  destruct (validators.ValidateID key validators.HexadecimalValidator) eqn:Hv;
    [injection Hrun as <- <-; by left|].
  unfold mbind, result_bind, rbind in Hrun.
  destruct (FindClosestNodes c rt key (ID node)) as [closest|]; [|done].
  destruct (hasID (ID node) closest); simpl in Hrun; injection Hrun as <- <-.
  - right. split; [done|]. split; [done|]. by exists key, value.
  - by left.
Qed.

Lemma StoreHandler_store_changes_only_on_201_witness :
  (StatusCode (httpError "Invalid request method" StatusMethodNotAllowed)
   <> StatusCreated /\ Samples.emptyStore = Samples.emptyStore)
  \/ (StatusCode (httpError "Invalid request method" StatusMethodNotAllowed)
      = StatusCreated
      /\ storeMethod {| storeMethod := "GET"; storeBody := Parsed Samples.someKey "v" |}
         = "POST"
      /\ exists key value,
           storeBody {| storeMethod := "GET"; storeBody := Parsed Samples.someKey "v" |}
           = Parsed key value
           /\ validators.ValidateID key validators.HexadecimalValidator = None
           /\ value <> ""
           /\ Samples.emptyStore = KV.Set_ Samples.emptyStore key value).
Proof.
  apply (StoreHandler_store_changes_only_on_201 Samples.k3
           {| storeMethod := "GET"; storeBody := Parsed Samples.someKey "v" |}
           Samples.localNode Samples.emptyStore Samples.emptyStore Samples.tieTable).
  vm_compute. reflexivity.
Defined.

(** In a running node the table is built by [NewRoutingTable] and
    [AddNodeToRoutingTable] for the node's own id; on such a table no STORE
    request is ever accepted: the answer is never 201 and the store stays
    as it is. *)
Theorem StoreHandler_never_stores_on_built_table `{SliceSorter}
    (c0 c : constants.Vars) (nodeID : string) (targets : list Node)
    (r : StoreRequest) (node : Node) (storage storage' : KeyValueStore)
    (resp : Response)
    (Hk : 0 <= constants.GetK c0)
    (Hrun : StoreHandler c r node storage
              (addAll (ID node) (NewRoutingTable c0 nodeID) targets)
            = Ok (resp, storage')) :
  StatusCode resp <> StatusCreated /\ storage' = storage.
Proof.
  set (rt := addAll (ID node) (NewRoutingTable c0 nodeID) targets) in *.
  assert (Hrt : tableOK (ID node) (constants.GetK c0) rt).
  { apply tableOK_addAll. by apply tableOK_new. }
  unfold StoreHandler in Hrun.
  destruct (negb (String.eqb (storeMethod r) "POST"));
    [injection Hrun as <- <-; by split|].
  destruct (storeBody r) as [| |key value];
    try (injection Hrun as <- <-; by split).
  destruct (String.eqb key "" || String.eqb value "");
    [injection Hrun as <- <-; by split|].
  destruct (validators.ValidateID key validators.HexadecimalValidator);
    [injection Hrun as <- <-; by split|].
  unfold mbind, result_bind, rbind in Hrun.
  destruct (FindClosestNodes c rt key (ID node)) as [closest|] eqn:Hc; [|done].
  destruct (FindClosestNodes_spec c rt key (ID node) closest Hc)
    as (_ & _ & Hsub & _).
  destruct (hasID (ID node) closest) eqn:Hself; simpl in Hrun.
  - exfalso. apply hasID_spec in Hself as (n & Hn & Hid).
    assert (Hin : n ∈ allNodes rt) by (by eapply elem_of_submseteq).
    by destruct (tableOK_not_local _ _ _ n Hrt Hin).
  - injection Hrun as <- <-. by split.
Qed.

Lemma StoreHandler_never_stores_on_built_table_witness :
  StatusCode {| StatusCode := StatusOK;
                Payload := JSONNodes [Samples.contact Samples.peerLower;
                                      Samples.contact Samples.peerUpper] |}
  <> StatusCreated
  /\ Samples.emptyStore = Samples.emptyStore.
Proof.
  apply (StoreHandler_never_stores_on_built_table Samples.k3 Samples.k3
           Samples.localID
           [Samples.contact Samples.peerLower; Samples.contact Samples.peerUpper]
           {| storeMethod := "POST"; storeBody := Parsed Samples.someKey "x" |}
           Samples.localNode Samples.emptyStore Samples.emptyStore).
  - vm_compute. discriminate.
  - vm_compute. reflexivity.
Defined.

(** ** STORE followed by FIND_VALUE *)

(** A pair that STORE accepted (answer 201) is what FIND_VALUE returns for
    the key afterwards, whatever the routing table is by then. *)
Theorem FindValueHandler_after_StoreHandler `{SliceSorter} (c c' : constants.Vars)
    (node node' : Node) (storage storage' : KeyValueStore) (rt rt' : RoutingTable)
    (key value : string) (text : string)
    (Hstore : StoreHandler c {| storeMethod := "POST"; storeBody := Parsed key value |}
                node storage rt
              = Ok ({| StatusCode := StatusCreated; Payload := Text text |}, storage')) :
  FindValueHandler c' key node' storage' rt'
  = Ok {| StatusCode := StatusOK; Payload := JSONString value |}.
Proof.
  unfold StoreHandler in Hstore. cbn [storeMethod storeBody] in Hstore.
  simpl negb in Hstore. cbv iota in Hstore.
  destruct (String.eqb key "") eqn:Hkey; [discriminate Hstore|].
  destruct (String.eqb value ""); [discriminate Hstore|]. simpl in Hstore.
  destruct (validators.ValidateID key validators.HexadecimalValidator) eqn:Hv;
    [discriminate Hstore|].
  unfold mbind, result_bind, rbind in Hstore.
  destruct (FindClosestNodes c rt key (ID node)) as [closest|]; [|done].
  destruct (hasID (ID node) closest); simpl in Hstore; [|discriminate Hstore].
  injection Hstore as _ <-.
  unfold FindValueHandler. rewrite Hkey, Hv.
  unfold KV.Set_. simpl. by rewrite lookup_insert_eq.
Qed.

Lemma FindValueHandler_after_StoreHandler_witness :
  FindValueHandler Samples.k2 Samples.someKey (Samples.contact Samples.peer1)
    (KV.Set_ Samples.emptyStore Samples.someKey "hello") Samples.tieTable
  = Ok {| StatusCode := StatusOK; Payload := JSONString "hello" |}.
Proof.
  apply (FindValueHandler_after_StoreHandler Samples.k3 Samples.k2
           Samples.localNode (Samples.contact Samples.peer1)
           Samples.emptyStore (KV.Set_ Samples.emptyStore Samples.someKey "hello")
           Samples.selfTable Samples.tieTable Samples.someKey "hello"
           ("Stored key: " ++ Samples.someKey ++ ", value: hello")).
  vm_compute. reflexivity.
Defined.

(** A STORE that was answered with the list of closest contacts, for a key
    the store does not have, is followed by a FIND_VALUE with the very
    same list. *)
Theorem FindValueHandler_after_redirect `{SliceSorter} (c : constants.Vars)
    (node : Node) (storage storage' : KeyValueStore) (rt : RoutingTable)
    (key value : string) (closest : list Node)
    (Hstore : StoreHandler c {| storeMethod := "POST"; storeBody := Parsed key value |}
                node storage rt
              = Ok ({| StatusCode := StatusOK; Payload := JSONNodes closest |},
                    storage'))
    (Hmiss : KV.Get storage key = None) :
  storage' = storage
  /\ FindValueHandler c key node storage' rt
     = Ok {| StatusCode := StatusOK; Payload := JSONNodes closest |}.
Proof.
  unfold StoreHandler in Hstore. cbn [storeMethod storeBody] in Hstore.
  simpl negb in Hstore. cbv iota in Hstore.
  destruct (String.eqb key "") eqn:Hkey; [discriminate Hstore|].
  destruct (String.eqb value ""); [discriminate Hstore|]. simpl in Hstore.
  destruct (validators.ValidateID key validators.HexadecimalValidator) eqn:Hv;
    [discriminate Hstore|].
  unfold mbind, result_bind, rbind in Hstore.
  destruct (FindClosestNodes c rt key (ID node)) as [closest'|] eqn:Hc; [|done].
  destruct (hasID (ID node) closest'); simpl in Hstore; [discriminate Hstore|].
  injection Hstore as -> <-. split; [done|].
  unfold FindValueHandler. rewrite Hkey, Hv.
  unfold KV.Get in Hmiss. rewrite Hmiss. by rewrite Hc.
Qed.

Lemma FindValueHandler_after_redirect_witness :
  Samples.emptyStore = Samples.emptyStore
  /\ FindValueHandler Samples.k3 Samples.someKey Samples.localNode
       Samples.emptyStore Samples.tieTable
     = Ok {| StatusCode := StatusOK;
             Payload := JSONNodes [Samples.contact Samples.peerLower;
                                   Samples.contact Samples.peerUpper] |}.
Proof.
  apply (FindValueHandler_after_redirect Samples.k3 Samples.localNode
           Samples.emptyStore Samples.emptyStore Samples.tieTable
           Samples.someKey "x").
  - vm_compute. reflexivity.
  - vm_compute. reflexivity.
Defined.

(** ** FIND_NODE *)

(** FIND_NODE answers 400 with the reason of [ValidateID] for every id
    that fails it — the empty id included, so that the message for a
    missing parameter is never sent — and otherwise 200 with
    [FindClosestNodes] of the id. *)
Theorem FindNodeHandler_answers `{SliceSorter} (c : constants.Vars)
    (queryID : string) (node : Node) (rt : RoutingTable) (resp : Response)
    (Hrun : FindNodeHandler c queryID node rt = Ok resp) :
  resp <> httpError "Missing 'id' parameter" StatusBadRequest
  /\ match validators.ValidateID queryID validators.HexadecimalValidator with
     | Some err =>
         resp = httpError ("Invalid ID format: " ++ errorText err) StatusBadRequest
     | None =>
         exists closest,
           FindClosestNodes c rt queryID (ID node) = Ok closest
           /\ resp = {| StatusCode := StatusOK; Payload := JSONNodes closest |}
     end.
Proof.
  unfold FindNodeHandler in Hrun.
  destruct (validators.ValidateID queryID validators.HexadecimalValidator)
    as [err|] eqn:Hv.
  - injection Hrun as <-. split; [|done]. by destruct err.
  - rewrite (ValidateID_nonempty queryID Hv) in Hrun.
    unfold mbind, result_bind, rbind in Hrun.
    destruct (FindClosestNodes c rt queryID (ID node)) as [closest|]; [|done].
    injection Hrun as <-. split; [done|]. by exists closest.
Qed.

Lemma FindNodeHandler_answers_witness :
  httpError "Invalid ID format: invalid length" StatusBadRequest
  <> httpError "Missing 'id' parameter" StatusBadRequest
  /\ match validators.ValidateID "" validators.HexadecimalValidator with
     | Some err =>
         httpError "Invalid ID format: invalid length" StatusBadRequest
         = httpError ("Invalid ID format: " ++ errorText err) StatusBadRequest
     | None =>
         exists closest,
           FindClosestNodes Samples.k3 Samples.tieTable "" (ID Samples.localNode)
           = Ok closest
           /\ httpError "Invalid ID format: invalid length" StatusBadRequest
              = {| StatusCode := StatusOK; Payload := JSONNodes closest |}
     end.
Proof.
  apply (FindNodeHandler_answers Samples.k3 "" Samples.localNode Samples.tieTable).
  vm_compute. reflexivity.
Defined.

(** ** PING: what reaches the routing table *)

(** Whenever PING returns, the table is either untouched or the result of
    one [AddNodeToRoutingTable] of a contact made of the id of the query,
    the host of the peer address and a port in [1 .. 65535]; the answers
    400 and 500 leave the table untouched. *)
Theorem PingHandler_table_change (r : PingRequest) (node : Node)
    (storage : KeyValueStore) (rt rt' : RoutingTable) (resp : Response)
    (Hrun : PingHandler r node storage rt = Ok (resp, rt')) :
  (rt' = rt
   /\ (resp = pong node
       \/ resp = httpError "Invalid UDP port provided" StatusBadRequest
       \/ resp = httpError "Failed to extract IP address" StatusInternalServerError))
  \/ (resp = pong node
      /\ exists port host,
           strconv.Atoi (pingQueryPort r) = Some port
           /\ 1 <= port <= 65535
           /\ pingRemoteHost r = Some host
           /\ AddNodeToRoutingTable rt
                {| ID := pingQueryID r; IP := host; Port := port; LastSeen := 0 |}
                (ID node) = Ok rt').
Proof.
  unfold PingHandler in Hrun.
  destruct (negb (String.eqb (pingQueryID r) "")
            && negb (String.eqb (pingQueryPort r) ""));
    [|injection Hrun as <- <-; left; split; [done|by left]].
  destruct (strconv.Atoi (pingQueryPort r)) as [port|] eqn:Hport;
    [|injection Hrun as <- <-; left; split; [done|right; by left]].
  destruct (Z.leb_spec port 0); simpl in Hrun;
    [injection Hrun as <- <-; left; split; [done|right; by left]|].
  destruct (Z.ltb_spec 65535 port); simpl in Hrun;
    [injection Hrun as <- <-; left; split; [done|right; by left]|].
  destruct (pingRemoteHost r) as [host|] eqn:Hhost;
    [|injection Hrun as <- <-; left; split; [done|right; by right]].
  unfold mbind, result_bind, rbind in Hrun.
  destruct (AddNodeToRoutingTable rt _ (ID node)) as [rt''|] eqn:Hadd; [|done].
  injection Hrun as <- <-. right. split; [done|].
  exists port, host. split_and!; try done; lia.
Qed.

Lemma PingHandler_table_change_witness :
  (NewRoutingTable Samples.k3 Samples.localID = NewRoutingTable Samples.k3 Samples.localID
   /\ (httpError "Invalid UDP port provided" StatusBadRequest = pong Samples.localNode
       \/ httpError "Invalid UDP port provided" StatusBadRequest
          = httpError "Invalid UDP port provided" StatusBadRequest
       \/ httpError "Invalid UDP port provided" StatusBadRequest
          = httpError "Failed to extract IP address" StatusInternalServerError))
  \/ (httpError "Invalid UDP port provided" StatusBadRequest = pong Samples.localNode
      /\ exists port host,
           strconv.Atoi "99999" = Some port
           /\ 1 <= port <= 65535
           /\ Some "10.0.0.2" = Some host
           /\ AddNodeToRoutingTable (NewRoutingTable Samples.k3 Samples.localID)
                {| ID := Samples.peer1; IP := host; Port := port; LastSeen := 0 |}
                (ID Samples.localNode)
              = Ok (NewRoutingTable Samples.k3 Samples.localID)).
Proof.
  apply (PingHandler_table_change
           {| pingQueryID := Samples.peer1; pingQueryPort := "99999";
              pingRemoteHost := Some "10.0.0.2" |}
           Samples.localNode Samples.emptyStore
           (NewRoutingTable Samples.k3 Samples.localID)
           (NewRoutingTable Samples.k3 Samples.localID)).
  vm_compute. reflexivity.
Defined.

(** A PING that names a valid contact (id passing [ValidateID], not the
    number of the local id, port in range, peer address readable) on a
    table built for a valid local id with [k >= 1] is answered with the
    pong, and the contact is in the table afterwards. *)
Theorem PingHandler_learns_sender (c : constants.Vars) (node : Node)
    (targets : list Node) (storage : KeyValueStore)
    (id portText host : string) (port : Z)
    (Hk : 1 <= constants.GetK c)
    (Hlocal : validators.ValidateID (ID node) validators.HexadecimalValidator = None)
    (Hid : validators.ValidateID id validators.HexadecimalValidator = None)
    (Hdiff : hexValue (ID node) <> hexValue id)
    (Hport : strconv.Atoi portText = Some port)
    (Hrange : 1 <= port <= 65535) :
  exists rt',
    PingHandler {| pingQueryID := id; pingQueryPort := portText;
                   pingRemoteHost := Some host |}
                node storage (addAll (ID node) (NewRoutingTable c (ID node)) targets)
    = Ok (pong node, rt')
    /\ id ∈ (ID <$> allNodes rt').
Proof.
  set (rt := addAll (ID node) (NewRoutingTable c (ID node)) targets).
  set (pinger := {| ID := id; IP := host; Port := port; LastSeen := 0 |}).
  assert (Hrt : tableOK (ID node) (constants.GetK c) rt).
  { apply tableOK_addAll. apply tableOK_new; [done|lia]. }
  assert (Hlen : length (Buckets rt) = 160%nat).
  { unfold rt. rewrite addAll_length. unfold NewRoutingTable. simpl.
    rewrite length_replicate.
    destruct (ValidateID_ok (ID node) Hlocal) as [-> _]. done. }
  destruct (ValidateID_hexValue (ID node) Hlocal) as (x & Hx & Hxr).
  destruct (ValidateID_hexValue id Hid) as (y & Hy & Hyr).
  assert (Hne : x <> y) by (intros ->; apply Hdiff; by rewrite Hx, Hy).
  pose proof (bucketIndex_range x y Hxr Hyr Hne) as Hbi.
  assert (Hadd : exists rt', AddNodeToRoutingTable rt pinger (ID node) = Ok rt').
  { unfold AddNodeToRoutingTable.
    change (ID pinger) with id.
    rewrite calculateXORDistance_hexValue, Hx, Hy.
    unfold mbind, result_bind, rbind; cbv beta iota.
    set (bi := getBucketIndex (Z.lxor x y)) in *.
    destruct (lookup_lt_is_Some_2 (Buckets rt) (Z.to_nat bi)) as [b Hb]; [lia|].
    assert (Hidx : index (Buckets rt) bi = Ok b)
      by (apply index_Ok; split; [lia|done]).
    rewrite Hidx.
    destruct (hasID id (Nodes b)); [by eexists|].
    pose proof (ok_MaxSize _ _ _ _ (Hrt _ _ Hb)) as HM.
    destruct (Z.ltb_spec (Z.of_nat (length (Nodes b))) (MaxSize b)); [by eexists|].
    destruct (Nodes b) as [|h rest] eqn:Hnodes; [simpl in *; lia|]. by eexists. }
  destruct Hadd as [rt' Hadd]. exists rt'.
  assert (Hidne : String.eqb id "" = false) by (by apply ValidateID_nonempty).
  assert (Hpne : String.eqb portText "" = false) by (by destruct portText).
  split.
  - unfold PingHandler. cbn [pingQueryID pingQueryPort pingRemoteHost].
    rewrite Hidne, Hpne, Hport. simpl negb. cbv iota.
    destruct (Z.leb_spec port 0); [lia|].
    destruct (Z.ltb_spec 65535 port); [lia|]. simpl.
    fold pinger. unfold mbind, result_bind, rbind. by rewrite Hadd.
  - destruct (AddNodeToRoutingTable_inv rt rt' pinger (ID node) Hadd)
      as (bi & b' & _ & _ & Hlt & Hrt' & Hin).
    apply list_elem_of_fmap in Hin as (n & Hn1 & Hn2).
    change (ID pinger) with id in Hn1. rewrite Hn1.
    apply list_elem_of_fmap_2.
    apply (elem_of_allNodes rt' (Z.to_nat bi) b'); [|done].
    rewrite Hrt'. by apply list_lookup_insert_eq.
Qed.

Lemma PingHandler_learns_sender_witness :
  exists rt',
    PingHandler {| pingQueryID := Samples.peer3; pingQueryPort := "9000";
                   pingRemoteHost := Some "10.0.0.2" |}
                Samples.localNode Samples.emptyStore
                (addAll (ID Samples.localNode)
                   (NewRoutingTable Samples.k2 (ID Samples.localNode))
                   [Samples.contact Samples.peer1; Samples.contact Samples.peer2])
    = Ok (pong Samples.localNode, rt')
    /\ Samples.peer3 ∈ (ID <$> allNodes rt').
Proof.
  apply (PingHandler_learns_sender Samples.k2 Samples.localNode
           [Samples.contact Samples.peer1; Samples.contact Samples.peer2]
           Samples.emptyStore Samples.peer3 "9000" "10.0.0.2" 9000).
  - vm_compute. discriminate.
  - vm_compute. reflexivity.
  - vm_compute. reflexivity.
  - vm_compute. discriminate.
  - vm_compute. reflexivity.
  - lia.
Defined.

(** ** Join: what reaches the routing table *)

(** Whenever [JoinNetwork] returns, either it reports an error and the
    table is untouched, or it reports success and the table is the result
    of one [AddNodeToRoutingTable] of the contact made of the non-empty
    [node_id] of the PONG, the host part of the address and the port part
    as [Atoi] read it (no range is checked). *)
Theorem JoinNetwork_table_change (httpGet : string -> GetResult) (node : Node)
    (rt rt' : RoutingTable) (bootstrapAddr : string) (err : option JoinError)
    (Hrun : JoinNetwork httpGet node rt bootstrapAddr = Ok (err, rt')) :
  (err <> None /\ rt' = rt)
  \/ (err = None
      /\ exists ip portText port message nodeID,
           Split ":" bootstrapAddr = [ip; portText]
           /\ strconv.Atoi portText = Some port
           /\ httpGet ("http://" ++ bootstrapAddr ++ "/ping")
              = GetResponse StatusOK (Some (message, nodeID))
           /\ nodeID <> ""
           /\ AddNodeToRoutingTable rt
                {| ID := nodeID; IP := ip; Port := port; LastSeen := 0 |}
                (ID node) = Ok rt').
Proof.
  unfold JoinNetwork in Hrun.
  destruct (Split ":" bootstrapAddr) as [|ip [|portText [|more parts]]] eqn:Hsplit;
    try (injection Hrun as <- <-; by left).
  destruct (strconv.Atoi portText) as [port|] eqn:Hport;
    [|injection Hrun as <- <-; by left].
  destruct (httpGet ("http://" ++ bootstrapAddr ++ "/ping"))
    as [|status decoded] eqn:Hget; [injection Hrun as <- <-; by left|].
  destruct (Z.eqb_spec status StatusOK) as [->|]; simpl in Hrun;
    [|injection Hrun as <- <-; by left].
  destruct decoded as [[message nodeID]|]; [|injection Hrun as <- <-; by left].
  destruct (String.eqb_spec nodeID "") as [|Hne];
    [injection Hrun as <- <-; by left|].
  unfold mbind, result_bind, rbind in Hrun.
  destruct (AddNodeToRoutingTable rt _ (ID node)) as [rt''|] eqn:Hadd; [|done].
  injection Hrun as <- <-. right. split; [done|].
  by exists ip, portText, port, message, nodeID.
Qed.

Lemma JoinNetwork_table_change_witness :
  (Some InvalidBootstrapAddress <> None
   /\ Samples.tieTable = Samples.tieTable)
  \/ (Some InvalidBootstrapAddress = None
      /\ exists ip portText port message nodeID,
           Split ":" "localhost" = [ip; portText]
           /\ strconv.Atoi portText = Some port
           /\ Samples.pongShortID ("http://" ++ "localhost" ++ "/ping")
              = GetResponse StatusOK (Some (message, nodeID))
           /\ nodeID <> ""
           /\ AddNodeToRoutingTable Samples.tieTable
                {| ID := nodeID; IP := ip; Port := port; LastSeen := 0 |}
                (ID Samples.localNode) = Ok Samples.tieTable).
Proof.
  apply (JoinNetwork_table_change Samples.pongShortID Samples.localNode
           Samples.tieTable Samples.tieTable "localhost"
           (Some InvalidBootstrapAddress)).
  vm_compute. reflexivity.
Defined.

(** Joining twice through the same bootstrap node with the same answer
    gives the table of the first join: the bootstrap contact is there
    once. *)
Theorem JoinNetwork_twice (httpGet : string -> GetResult) (node : Node)
    (rt rt' : RoutingTable) (bootstrapAddr : string)
    (Hrun : JoinNetwork httpGet node rt bootstrapAddr = Ok (None, rt')) :
  JoinNetwork httpGet node rt' bootstrapAddr = Ok (None, rt').
Proof.
  unfold JoinNetwork in *.
  destruct (Split ":" bootstrapAddr) as [|ip [|portText [|more parts]]];
    try discriminate Hrun.
  destruct (strconv.Atoi portText) as [port|]; [|discriminate Hrun].
  destruct (httpGet ("http://" ++ bootstrapAddr ++ "/ping"))
    as [|status decoded]; [discriminate Hrun|].
  destruct (negb (status =? StatusOK)); [discriminate Hrun|].
  destruct decoded as [[message nodeID]|]; [|discriminate Hrun].
  destruct (String.eqb nodeID ""); [discriminate Hrun|].
  unfold mbind, result_bind, rbind in *.
  destruct (AddNodeToRoutingTable rt _ (ID node)) as [rt''|] eqn:Hadd; [|done].
  injection Hrun as <-.
  destruct (AddNodeToRoutingTable_inv rt rt'' _ (ID node) Hadd)
    as (bi & b' & Hbi & Hpos & Hlt & Hrt' & Hin).
  rewrite AddNodeToRoutingTable_unfold, Hbi.
  unfold mbind, result_bind, rbind; cbv beta iota.
  assert (Hidx : index (Buckets rt'') bi = Ok b').
  { apply index_Ok. split; [done|]. rewrite Hrt'.
    by apply list_lookup_insert_eq. }
  rewrite Hidx.
  destruct (hasID _ (Nodes b')) eqn:Hdup; [done|].
  by apply hasID_false in Hdup.
Qed.

Lemma JoinNetwork_twice_witness :
  JoinNetwork Samples.pongShortID Samples.localNode
    (addOrKeep Samples.localID Samples.tieTable
       {| ID := Samples.shortID; IP := "127.0.0.1"; Port := 8080; LastSeen := 0 |})
    "127.0.0.1:8080"
  = Ok (None,
        addOrKeep Samples.localID Samples.tieTable
          {| ID := Samples.shortID; IP := "127.0.0.1"; Port := 8080; LastSeen := 0 |}).
Proof.
  apply (JoinNetwork_twice Samples.pongShortID Samples.localNode Samples.tieTable).
  vm_compute. reflexivity.
Defined.

(** ** The earlier join and STORE *)

(** The earlier [JoinNetwork] never joins: after a PONG with status 200 it
    adds a contact with the empty id, which [decodeHex] does not accept,
    and panics; otherwise it reports the failure and leaves the table. *)
Theorem Legacy_JoinNetwork_never_succeeds (httpGet : string -> GetResult)
    (node : Node) (rt : RoutingTable) (bootstrapAddr : string) :
  Legacy.JoinNetwork httpGet node rt bootstrapAddr
  = match httpGet ("http://" ++ bootstrapAddr ++ "/ping") with
    | GetFailed => Ok (Some FailedToJoin, rt)
    | GetResponse status _ =>
        if status =? StatusOK then Panic NilPointerDereference
        else Ok (Some FailedToJoin, rt)
    end.
Proof.
  unfold Legacy.JoinNetwork.
  destruct (httpGet ("http://" ++ bootstrapAddr ++ "/ping")) as [|status decoded];
    [done|].
  destruct (status =? StatusOK); simpl; [|done].
  unfold AddNodeToRoutingTable, calculateXORDistance. simpl.
  by destruct (decodeHex (ID node)).
Qed.

(** The earlier STORE keeps every pair with a non-empty key and value that
    comes by POST — no test of the key, no look at the routing table — and
    the earlier FIND_VALUE then returns the value. *)
Theorem Legacy_StoreHandler_then_FindValueHandler (storage : KeyValueStore)
    (key value : string) (Hkey : key <> "") (Hvalue : value <> "") :
  exists storage',
    Legacy.StoreHandler {| storeMethod := "POST"; storeBody := Parsed key value |}
                        storage
    = ({| StatusCode := StatusCreated;
          Payload := Text ("Stored key: " ++ key ++ ", value: " ++ value) |},
       storage')
    /\ Legacy.FindValueHandler key storage'
       = {| StatusCode := StatusOK; Payload := JSONString value |}.
Proof.
  exists (KV.Set_ storage key value).
  apply String.eqb_neq in Hkey, Hvalue.
  unfold Legacy.StoreHandler, Legacy.FindValueHandler.
  cbn [storeMethod storeBody]. rewrite Hkey, Hvalue. simpl.
  split; [done|]. by rewrite lookup_insert_eq.
Qed.

Lemma Legacy_StoreHandler_then_FindValueHandler_witness :
  exists storage',
    Legacy.StoreHandler {| storeMethod := "POST"; storeBody := Parsed "k" "v" |}
                        Samples.emptyStore
    = ({| StatusCode := StatusCreated;
          Payload := Text ("Stored key: " ++ "k" ++ ", value: " ++ "v") |},
       storage')
    /\ Legacy.FindValueHandler "k" storage'
       = {| StatusCode := StatusOK; Payload := JSONString "v" |}.
Proof.
  apply (Legacy_StoreHandler_then_FindValueHandler Samples.emptyStore "k" "v");
    discriminate.
Defined.

(** ** Bucket size zero or less *)

(** After [SetK] with [0] or a negative value a new table cannot take any
    contact: for valid ids that are not the same number the call slices an
    empty bucket and panics. *)
Theorem AddNodeToRoutingTable_panics_without_capacity (c : constants.Vars)
    (localID : string) (target : Node)
    (Hk : constants.GetK c <= 0)
    (Hlocal : validators.ValidateID localID validators.HexadecimalValidator = None)
    (Htarget : validators.ValidateID (ID target) validators.HexadecimalValidator = None)
    (Hdiff : hexValue localID <> hexValue (ID target)) :
  AddNodeToRoutingTable (NewRoutingTable c localID) target localID
  = Panic (SliceBoundsOutOfRange 1 0).
Proof.
  destruct (ValidateID_hexValue localID Hlocal) as (x & Hx & Hxr).
  destruct (ValidateID_hexValue (ID target) Htarget) as (y & Hy & Hyr).
  assert (Hne : x <> y) by (intros ->; apply Hdiff; by rewrite Hx, Hy).
  pose proof (bucketIndex_range x y Hxr Hyr Hne) as Hrange.
  unfold AddNodeToRoutingTable.
  rewrite calculateXORDistance_hexValue, Hx, Hy.
  unfold mbind, result_bind, rbind; cbv beta iota.
  set (bi := getBucketIndex (Z.lxor x y)) in *.
  assert (Hidx : index (Buckets (NewRoutingTable c localID)) bi
                 = Ok {| Nodes := []; MaxSize := constants.GetK c |}).
  { apply index_Ok. split; [lia|]. unfold NewRoutingTable. simpl.
    apply lookup_replicate. split; [done|].
    destruct (ValidateID_ok localID Hlocal) as [-> _]. lia. }
  rewrite Hidx. simpl.
  destruct (Z.ltb_spec (Z.of_nat 0) (constants.GetK c)); [lia|done].
Qed.

Lemma AddNodeToRoutingTable_panics_without_capacity_witness :
  AddNodeToRoutingTable
    (NewRoutingTable (constants.SetK 0 constants.init) Samples.localID)
    (Samples.contact Samples.peer1) Samples.localID
  = Panic (SliceBoundsOutOfRange 1 0).
Proof.
  apply (AddNodeToRoutingTable_panics_without_capacity
           (constants.SetK 0 constants.init)).
  - vm_compute. discriminate.
  - vm_compute. reflexivity.
  - vm_compute. reflexivity.
  - vm_compute. discriminate.
Defined.

(** ** What eviction forgets *)

(** On a table built for the local id, once a full bucket has dropped its
    oldest contact for a new one, the id of the dropped contact is nowhere
    in the table any more. *)
Theorem evicted_contact_is_gone (c : constants.Vars) (nodeID localID : string)
    (targets : list Node) (target h : Node) (rest : list Node)
    (distance : Z) (bucket : Bucket) (rt' : RoutingTable)
    (Hk : 0 <= constants.GetK c)
    (Hdist : calculateXORDistance localID (ID target) = Ok distance)
    (Hbucket : index (Buckets (addAll localID (NewRoutingTable c nodeID) targets))
                     (getBucketIndex distance) = Ok bucket)
    (Hnodes : Nodes bucket = h :: rest)
    (Hfull : Z.of_nat (length (Nodes bucket)) = MaxSize bucket)
    (Hnew : ID target ∉ (ID <$> Nodes bucket))
    (Hadd : AddNodeToRoutingTable (addAll localID (NewRoutingTable c nodeID) targets)
              target localID = Ok rt') :
  ID h ∉ (ID <$> allNodes rt').
Proof.
  set (rt := addAll localID (NewRoutingTable c nodeID) targets) in *.
  assert (Hrt : tableOK localID (constants.GetK c) rt).
  { apply tableOK_addAll. by apply tableOK_new. }
  assert (Hrt' : tableOK localID (constants.GetK c) rt') by (by eapply tableOK_add).
  apply index_Ok in Hbucket as [Hpos Hb].
  pose proof (Hrt _ _ Hb) as [_ _ HN HI].
  assert (Hh : bucketIndexFor localID (ID h)
               = Ok (Z.of_nat (Z.to_nat (getBucketIndex distance)))).
  { apply HI. rewrite Hnodes. by left. }
  assert (Hb' : Buckets rt' !! Z.to_nat (getBucketIndex distance)
                = Some {| Nodes := rest ++ [target]; MaxSize := MaxSize bucket |}).
  { unfold AddNodeToRoutingTable in Hadd. rewrite Hdist in Hadd.
    unfold mbind, result_bind, rbind in Hadd; cbv beta iota in Hadd.
    assert (Hidx : index (Buckets rt) (getBucketIndex distance) = Ok bucket)
      by (by apply index_Ok).
    rewrite Hidx in Hadd. apply hasID_false in Hnew. rewrite Hnew in Hadd.
    destruct (Z.ltb_spec (Z.of_nat (length (Nodes bucket))) (MaxSize bucket));
      [lia|].
    rewrite Hnodes in Hadd. injection Hadd as <-. unfold setBucket. simpl.
    apply list_lookup_insert_eq. by eapply lookup_lt_Some. }
  intros (n & Hid & Hn)%list_elem_of_fmap.
  apply elem_of_allNodes_inv in Hn as (i & b'' & Hi & Hn).
  pose proof (ok_index _ _ _ _ (Hrt' _ _ Hi) n Hn) as Hidx.
  rewrite <- Hid, Hh in Hidx. injection Hidx as Hidx.
  apply Nat2Z.inj in Hidx. subst i. rewrite Hb' in Hi. injection Hi as <-.
  simpl in Hn. apply elem_of_app in Hn as [Hn|Hn].
  - rewrite Hnodes in HN. simpl in HN. apply NoDup_cons in HN as [HN _].
    apply HN. rewrite Hid. by apply list_elem_of_fmap_2.
  - apply list_elem_of_singleton in Hn. subst n.
    apply Hnew. rewrite <- Hid, Hnodes. simpl. by left.
Qed.

Lemma evicted_contact_is_gone_witness :
  ID (Samples.contact Samples.peer1)
  ∉ (ID <$> allNodes (addOrKeep Samples.localID Samples.fullTable
                        (Samples.contact Samples.peer3))).
Proof.
  apply (evicted_contact_is_gone Samples.k2 Samples.localID Samples.localID
           [Samples.contact Samples.peer1; Samples.contact Samples.peer2]
           (Samples.contact Samples.peer3) (Samples.contact Samples.peer1)
           [Samples.contact Samples.peer2]
           730750818665451459101842416358141509827966271650
           {| Nodes := [Samples.contact Samples.peer1; Samples.contact Samples.peer2];
              MaxSize := 2 |}).
  - vm_compute. discriminate.
  - vm_compute. reflexivity.
  - vm_compute. reflexivity.
  - reflexivity.
  - reflexivity.
  - apply (bool_decide_unpack _). vm_compute. exact I.
  - vm_compute. reflexivity.
Defined.

(** ** PING with a bad port *)

Lemma PingHandler_bad_port_witness :
  PingHandler {| pingQueryID := Samples.peer1; pingQueryPort := "0";
                 pingRemoteHost := Some "127.0.0.1" |}
              Samples.localNode Samples.emptyStore Samples.tieTable
  = Ok (httpError "Invalid UDP port provided" StatusBadRequest, Samples.tieTable).
Proof.
  apply (PingHandler_bad_port Samples.peer1 "0" (Some "127.0.0.1")).
  - discriminate.
  - discriminate.
  - vm_compute. left. discriminate.
Defined.
